(** * AdeyPay React SDK: the pay button and the withdraw button

    A shallow embedding of [PayButton.tsx] and [WithdrawButton.tsx].
    Handlers and effects are functions in a small trace/state/exception
    monad; what the browser, the [usePayment] hook and the remote service
    answer is an input of each handler. *)

From Stdlib Require Import Ascii QArith DecimalString DecimalPos DecimalZ.
From stdpp Require Import base decidable list strings gmap.

Local Open Scope string_scope.
Local Open Scope list_scope.
Local Open Scope stdpp_scope.

(** ** JavaScript values, as far as the two components look at them *)
Module JS.

(** A JS number: comparisons are the only operations the components use,
    so a finite double is represented by its rational value. *)
Inductive number : Type :=
| NaN
| PosInf
| NegInf
| Finite (q : Q).

(** [a < b] on JS numbers; every comparison with [NaN] is false. *)
Definition num_lt (a b : number) : bool :=
  match a, b with
  | NaN, _ | _, NaN => false
  | PosInf, _ => false
  | NegInf, NegInf => false
  | NegInf, _ => true
  | Finite _, NegInf => false
  | Finite _, PosInf => true
  | Finite x, Finite y => negb (Qle_bool y x)
  end.

(** [a <= b] on JS numbers. *)
Definition num_le (a b : number) : bool :=
  match a, b with
  | NaN, _ | _, NaN => false
  | NegInf, _ => true
  | _, PosInf => true
  | PosInf, _ => false
  | Finite _, NegInf => false
  | Finite x, Finite y => Qle_bool x y
  end.

(** [a > b] is [b < a]. *)
Definition num_gt (a b : number) : bool := num_lt b a.

(** [isNaN] on a value that is already a number. *)
Definition isNaN (a : number) : bool :=
  match a with NaN => true | _ => false end.

Definition zero : number := Finite 0.

(** The values a prop or a payload field can hold at run time. *)
Inductive value : Type :=
| VUndefined
| VNull
| VBool (b : bool)
| VNum (n : number)
| VStr (s : string)
| VObject.

(** [!!v] *)
Definition truthy (v : value) : bool :=
  match v with
  | VUndefined | VNull => false
  | VBool b => b
  | VNum NaN => false
  | VNum (Finite q) => negb (Qeq_bool q 0)
  | VNum _ => true
  | VStr s => negb (String.eqb s "")
  | VObject => true
  end.

(** [!!s] for a [string | null | undefined]. *)
Definition truthy_str (s : option string) : bool :=
  match s with
  | Some x => negb (String.eqb x "")
  | None => false
  end.

(** [a || b] *)
Definition or_else (a b : value) : value := if truthy a then a else b.

(** [new Error(...)] objects, by the message template that builds them;
    [Foreign] is an [Error] made outside the two components. *)
Inductive error : Type :=
| Err (msg : string)
| MinimumWithdrawal (minAmount : number)
| MaximumWithdrawal (maxAmount : number)
| Foreign (tag : string).

(** What a [catch] clause receives: an [Error], or some other value of
    which only [String(v)] is used. *)
Inductive thrown : Type :=
| ThrownError (e : error)
| ThrownValue (text : string).

(** [err instanceof Error ? err : new Error(String(err))] *)
Definition to_error (x : thrown) : error :=
  match x with
  | ThrownError e => e
  | ThrownValue s => Err s
  end.

(** An optional callback prop: not passed, passed and returning, or
    passed and throwing [x]. *)
Inductive callback : Type :=
| Absent
| Returns
| Throws (x : thrown).

End JS.

(** ** Handlers as computations: a trace of effects, a state, a completion *)
Module Exec.
Import JS.

Inductive completion (A : Type) : Type :=
| Normal (a : A)
| Thrown (x : thrown).
Arguments Normal {A} a.
Arguments Thrown {A} x.

Definition exec (S E A : Type) : Type := S -> list E * S * completion A.

Section Ops.
Context {S E : Type}.

Definition ret {A} (a : A) : exec S E A := fun s => ([], s, Normal a).

Definition bind {A B} (m : exec S E A) (f : A -> exec S E B) : exec S E B :=
  fun s =>
    match m s with
    | (t1, s1, Normal a) =>
        match f a s1 with (t2, s2, c) => (t1 ++ t2, s2, c) end
    | (t1, s1, Thrown x) => (t1, s1, Thrown x)
    end.

Definition throw {A} (x : thrown) : exec S E A := fun s => ([], s, Thrown x).

Definition emit (e : E) : exec S E unit := fun s => ([e], s, Normal tt).

Definition get : exec S E S := fun s => ([], s, Normal s).

Definition modify (f : S -> S) : exec S E unit := fun s => ([], f s, Normal tt).

(** [try { m } catch (x) { h x }] *)
Definition try_catch {A} (m : exec S E A) (h : thrown -> exec S E A) : exec S E A :=
  fun s =>
    match m s with
    | (t1, s1, Normal a) => (t1, s1, Normal a)
    | (t1, s1, Thrown x) =>
        match h x s1 with (t2, s2, c) => (t1 ++ t2, s2, c) end
    end.

(** [try { m } finally { fin }]: [fin] always runs; a throw of [fin]
    replaces the completion of [m]. *)
Definition try_finally {A} (m : exec S E A) (fin : exec S E unit) : exec S E A :=
  fun s =>
    match m s with
    | (t1, s1, c) =>
        match fin s1 with
        | (t2, s2, Normal _) => (t1 ++ t2, s2, c)
        | (t2, s2, Thrown y) => (t1 ++ t2, s2, Thrown y)
        end
    end.

(** [cb?.(args)]: the call is the effect [e]. *)
Definition invoke (cb : callback) (e : E) : exec S E unit :=
  match cb with
  | Absent => ret tt
  | Returns => emit e
  | Throws x => bind (emit e) (fun _ => throw x)
  end.

(** The trace of [cb?.(args)]. *)
Definition fire (cb : callback) (e : E) : list E :=
  match cb with
  | Absent => []
  | _ => [e]
  end.

Definition trace_of {A} (r : list E * S * completion A) : list E := r.1.1.
Definition state_of {A} (r : list E * S * completion A) : S := r.1.2.
Definition completion_of {A} (r : list E * S * completion A) : completion A := r.2.
End Ops.

Module Notations.
Notation "x <- m ;; k" := (bind m (fun x => k))
  (at level 100, m at next level, right associativity).
Notation "m ;; k" := (bind m (fun _ => k))
  (at level 100, right associativity).
End Notations.
End Exec.

(** ** PayButton.tsx *)
Module PayButton.
Import JS Exec Exec.Notations.

(** The popup [Window]: the component reads [closed] and calls [focus]
    and [close]. *)
Record window : Type := { closed : bool }.

Record Props : Type := {
  amount : value;
  apiKey : value;
  callbackUrl : option string;
  note : value;
  openPayUrlBase : string;
  onCreated : callback;
  onApproved : callback;
  onError : callback;
}.

(** [handledRef.current], [popupRef.current] and the [loading] state. *)
Record state : Type := {
  handledRef : gset string;
  popupRef : option window;
  loading : bool;
}.

Definition initial : state :=
  {| handledRef := ∅; popupRef := None; loading := false |}.

(** The argument of [startPayment]. *)
Record payment_request : Type := {
  req_amount : number;
  req_apiKey : value;
  req_callbackUrl : string;
  req_note : value;
}.

Inductive effect : Type :=
| OnCreated (paymentId : string)
| OnApproved (paymentId : option string)
| OnError (e : error)
| WindowOpen (base paymentId : string)
| PopupFocus
| PopupClose
| ConsoleError
| SetLoading (b : bool)
| StartPayment (r : payment_request).

Definition add_handled (k : string) (s : state) : state :=
  {| handledRef := {[k]} ∪ handledRef s; popupRef := popupRef s; loading := loading s |}.

Definition set_popup (w : option window) (s : state) : state :=
  {| handledRef := handledRef s; popupRef := w; loading := loading s |}.

Definition set_loading (b : bool) (s : state) : state :=
  {| handledRef := handledRef s; popupRef := popupRef s; loading := b |}.

(** [setLoading(b)] *)
Definition setLoading (b : bool) : exec state effect unit :=
  emit (SetLoading b) ;; modify (set_loading b).

(** What [window.open] does this time. *)
Inductive open_result : Type :=
| OpenReturns (w : option window)
| OpenThrows (x : thrown).

Definition popup_blocked : error :=
  Err "Popup blocked. Please allow popups for this site.".

(** The effect on [paymentId]: record the id, open the popup, report
    [onCreated].  The URL and the feature string of [window.open] are
    kept as the base and the id they are built from. *)
Definition creationEffect (p : Props) (paymentId : option string)
    (opened : open_result) : exec state effect unit :=
  match paymentId with
  | None => ret tt
  | Some id =>
      if negb (truthy_str paymentId) then ret tt else
      s <- get ;;
      if bool_decide (id ∈ handledRef s) then ret tt else
      modify (add_handled id) ;;
      try_catch
        (emit (WindowOpen (openPayUrlBase p) id) ;;
         match opened with
         | OpenThrows x => throw x
         | OpenReturns w =>
             modify (set_popup w) ;;
             match w with
             | None => throw (ThrownError popup_blocked)
             | Some _ => emit PopupFocus
             end
         end)
        (fun err =>
           emit ConsoleError ;;
           invoke (onError p) (OnError (to_error err))) ;;
      invoke (onCreated p) (OnCreated id)
  end.

(** [event.data] of a protocol message; absent or [null] fields are
    [None]. *)
Record message_data : Type := {
  type : option string;
  paymentId : option string;
  status : option string;
}.

(** A [MessageEvent]; [data = None] is a nullish [event.data], read as
    the empty object. *)
Record MessageEvent : Type := {
  origin : string;
  data : option message_data;
}.

Definition empty_data : message_data :=
  {| type := None; paymentId := None; status := None |}.

Definition protocol_tag : string := "ADEYPAY_PAYMENT".

(** [incomingPaymentId ?? paymentId] *)
Definition subject (incoming current : option string) : option string :=
  match incoming with
  | Some i => Some i
  | None => current
  end.

(** The template [`status-${id}`]; the hook's empty [paymentId] is
    [null]. *)
Definition status_key (id : option string) : string :=
  "status-" +:+ default "null" id.

(** [if (popupRef.current && !popupRef.current.closed) popupRef.current.close()] *)
Definition close_popup : exec state effect unit :=
  s <- get ;;
  match popupRef s with
  | Some w =>
      if negb (closed w)
      then emit PopupClose ;; modify (set_popup (Some {| closed := true |}))
      else ret tt
  | None => ret tt
  end.

(** The [message] listener, for the render in which the hook's id is
    [current] and the memoised origin is [allowedOrigin]: the origin of
    [openPayUrlBase], or [None] when [new URL] throws on it. *)
Definition handleMessage (p : Props) (allowedOrigin current : option string)
    (event : MessageEvent) : exec state effect unit :=
  if truthy_str allowedOrigin && negb (bool_decide (Some (origin event) = allowedOrigin))
  then ret tt else
  let d := default empty_data (data event) in
  if negb (bool_decide (type d = Some protocol_tag)) then ret tt else
  let incomingPaymentId := paymentId d in
  let incomingStatus := status d in
  if truthy_str current && truthy_str incomingPaymentId
     && negb (bool_decide (incomingPaymentId = current))
  then ret tt else
  let key := status_key (subject incomingPaymentId current) in
  s <- get ;;
  if bool_decide (key ∈ handledRef s) then ret tt else
  if bool_decide (incomingStatus = Some "approved") then
    modify (add_handled key) ;;
    try_catch
      (invoke (onApproved p) (OnApproved (subject incomingPaymentId current)))
      (fun _ => emit ConsoleError) ;;
    close_popup
  else if bool_decide (incomingStatus = Some "failed") then
    modify (add_handled key) ;;
    invoke (onError p) (OnError (Err "Payment failed (popup)"))
  else ret tt.

(** The effect on the hook's [status]. *)
Definition statusEffect (p : Props) (current status : option string)
    : exec state effect unit :=
  if negb (truthy_str status) || negb (truthy_str current) then ret tt else
  let key := status_key current in
  s <- get ;;
  if bool_decide (key ∈ handledRef s) then ret tt else
  if bool_decide (status = Some "approved") then
    modify (add_handled key) ;;
    invoke (onApproved p) (OnApproved current) ;;
    close_popup
  else if bool_decide (status = Some "failed") then
    modify (add_handled key) ;;
    invoke (onError p) (OnError (Err "Payment failed"))
  else ret tt.

(** How the promise of [startPayment] settles. *)
Inductive settled : Type :=
| Resolves
| Rejects (x : thrown).

(** [typeof amount !== "number" || isNaN(amount) || amount <= 0] *)
Definition invalid_amount (a : value) : bool :=
  match a with
  | VNum n => isNaN n || num_le n zero
  | _ => true
  end.

Definition as_number (a : value) : number :=
  match a with VNum n => n | _ => NaN end.

(** The click handler; [location_origin] is [window.location.origin]
    and [net] the way [startPayment] settles, if it is reached.
    [e.preventDefault()] acts on the DOM event only and is left out. *)
Definition handleClick (p : Props) (location_origin : string) (net : settled)
    : exec state effect unit :=
  s <- get ;;
  if loading s then ret tt else
  try_finally
    (try_catch
       (setLoading true ;;
        if invalid_amount (amount p) then throw (ThrownError (Err "Invalid amount")) else
        if negb (truthy (apiKey p)) then throw (ThrownError (Err "API key is required")) else
        let cbUrl := default location_origin (callbackUrl p) in
        emit (StartPayment {| req_amount := as_number (amount p);
                              req_apiKey := apiKey p;
                              req_callbackUrl := cbUrl;
                              req_note := note p |}) ;;
        match net with
        | Resolves => ret tt
        | Rejects x => throw x
        end)
       (fun err =>
          emit ConsoleError ;;
          invoke (onError p) (OnError (to_error err))))
    (setLoading false).

(** What can happen to a mounted button: the hook delivers a new
    [paymentId] (the creation effect runs and [window.open] answers),
    a window message arrives, the hook delivers a status, the user
    clicks.  Each carries the hook's [paymentId] of that render. *)
Inductive event : Type :=
| PaymentIdEffect (current : option string) (opened : open_result)
| Message (current : option string) (ev : MessageEvent)
| StatusEffect (current status : option string)
| Click (location_origin : string) (net : settled).

Definition step (p : Props) (allowedOrigin : option string) (e : event)
    : exec state effect unit :=
  match e with
  | PaymentIdEffect current opened => creationEffect p current opened
  | Message current ev => handleMessage p allowedOrigin current ev
  | StatusEffect current st => statusEffect p current st
  | Click o net => handleClick p o net
  end.

(** The event loop: an exception that escapes one handler does not
    undo its writes and does not stop later events. *)
Fixpoint run (p : Props) (allowedOrigin : option string) (es : list event)
    (s : state) : list effect * state :=
  match es with
  | [] => ([], s)
  | e :: es' =>
      let r := step p allowedOrigin e s in
      let r' := run p allowedOrigin es' (state_of r) in
      (trace_of r ++ r'.1, r'.2)
  end.

Definition is_approved (e : effect) : bool :=
  match e with OnApproved _ => true | _ => false end.

Definition is_created (id : string) (e : effect) : bool :=
  match e with OnCreated i => bool_decide (i = id) | _ => false end.

(** The two errors that report a failed payment. *)
Definition is_terminal_error (e : effect) : bool :=
  match e with
  | OnError (Err m) =>
      bool_decide (m = "Payment failed (popup)") || bool_decide (m = "Payment failed")
  | _ => false
  end.

Definition is_terminal (e : effect) : bool := is_approved e || is_terminal_error e.

Definition is_network (e : effect) : bool :=
  match e with StartPayment _ => true | _ => false end.

Definition count (f : effect -> bool) (t : list effect) : nat :=
  length (List.filter f t).

(** [event.data ?? {}] *)
Definition msg_data (ev : MessageEvent) : message_data :=
  default empty_data (data ev).

(** The sender is the allowed origin, when there is one. *)
Definition origin_ok (allowedOrigin : option string) (ev : MessageEvent) : bool :=
  match allowedOrigin with
  | None => true
  | Some o => bool_decide (origin ev = o)
  end.

(** A message or a hook status delivered while the session's id is
    [id], and naming no other id. *)
Definition for_session (id : string) (e : event) : bool :=
  match e with
  | Message current ev =>
      bool_decide (current = Some id)
      && (bool_decide (paymentId (msg_data ev) = None)
          || bool_decide (paymentId (msg_data ev) = Some id))
  | StatusEffect current _ => bool_decide (current = Some id)
  | _ => false
  end.

(** [e] delivers status [st] for session [id]: a protocol message from
    the allowed origin, or the hook's status. *)
Definition reports (st id : string) (allowedOrigin : option string) (e : event) : bool :=
  for_session id e &&
  match e with
  | Message _ ev =>
      origin_ok allowedOrigin ev
      && bool_decide (type (msg_data ev) = Some protocol_tag)
      && bool_decide (status (msg_data ev) = Some st)
  | StatusEffect _ s => bool_decide (s = Some st)
  | _ => false
  end.

(** What either channel does on ["approved"] once the filters and the
    dedup check let the event through; only the message listener
    catches what [onApproved] throws ([rescue]). *)
Definition on_approved (p : Props) (rescue : bool) (id : string)
    : exec state effect unit :=
  modify (add_handled (status_key (Some id))) ;;
  (if rescue
   then try_catch (invoke (onApproved p) (OnApproved (Some id)))
          (fun _ => emit ConsoleError)
   else invoke (onApproved p) (OnApproved (Some id))) ;;
  close_popup.

(** The same on ["failed"]; [msg] is the channel's error message. *)
Definition on_failed (p : Props) (msg id : string) : exec state effect unit :=
  modify (add_handled (status_key (Some id))) ;;
  invoke (onError p) (OnError (Err msg)).

(** [popupRef.current && !popupRef.current.closed] *)
Definition popup_open (s : state) : bool :=
  match popupRef s with
  | Some w => negb (closed w)
  | None => false
  end.

(** The error a channel reports on ["failed"]. *)
Definition failure_error (e : event) : error :=
  match e with
  | Message _ _ => Err "Payment failed (popup)"
  | _ => Err "Payment failed"
  end.

(** The three early returns of the listener. *)
Definition rejected (allowedOrigin current : option string) (ev : MessageEvent) : Prop :=
  (truthy_str allowedOrigin = true /\ Some (origin ev) <> allowedOrigin)
  \/ (truthy_str current = true /\ truthy_str (paymentId (msg_data ev)) = true
      /\ paymentId (msg_data ev) <> current)
  \/ type (msg_data ev) <> Some protocol_tag.

Definition is_set_loading (e : effect) : bool :=
  match e with SetLoading _ => true | _ => false end.

(** The two checks of the click handler, as a rule list. *)
Definition first_failure (p : Props) : option error :=
  match amount p with
  | VNum n =>
      if negb (num_gt n zero) then Some (Err "Invalid amount")
      else if negb (truthy (apiKey p)) then Some (Err "API key is required")
      else None
  | _ => Some (Err "Invalid amount")
  end.

Definition request_of (p : Props) (location_origin : string) : payment_request :=
  {| req_amount := as_number (amount p); req_apiKey := apiKey p;
     req_callbackUrl := default location_origin (callbackUrl p);
     req_note := note p |}.

(** The error [onError] receives when [window.open] gives no handle. *)
Definition open_failure (opened : open_result) : option error :=
  match opened with
  | OpenReturns None => Some popup_blocked
  | OpenReturns (Some _) => None
  | OpenThrows x => Some (to_error x)
  end.

End PayButton.

(** ** WithdrawButton.tsx *)
Module WithdrawButton.
Import JS Exec Exec.Notations.

Record WithdrawPayload : Type := {
  amount : value;
  toEmail : value;
  note : value;
}.

(** The [getPayload] prop: not a function; or a function whose call
    returns a payload ([None] for [null]/[undefined]) or throws. *)
Inductive getter : Type :=
| NotAFunction
| GetterReturns (r : option WithdrawPayload)
| GetterThrows (x : thrown).

(** [createPayout] tells whether the prop was passed. *)
Record Props : Type := {
  amountProp : value;
  toEmailProp : value;
  noteProp : value;
  createPayout : bool;
  apiKey : value;
  onCreated : callback;
  onApproved : callback;
  onError : callback;
  getPayload : getter;
  minAmountProp : option number;
  maxAmount : option number;
  disabled : bool;
}.

(** The default of the destructured prop: [minAmount = 5]. *)
Definition minAmount (p : Props) : number :=
  default (Finite 5) (minAmountProp p).

Record state : Type := { loading : bool }.

Record payout_request : Type := {
  req_amount : number;
  req_toEmail : string;
  req_note : value;
  req_apiKey : value;
  req_idempotencyKey : string;
}.

(** The object the create call resolves to, when it is one. *)
Record response : Type := {
  payoutId : value;
  id : value;
}.

Inductive settled : Type :=
| Resolves (res : option response)
| Rejects (x : thrown).

Inductive effect : Type :=
| OnCreated (payoutId : value) (amount : number)
| OnApproved (payoutId : value) (amount : number)
| OnError (e : error)
| SetLoading (b : bool)
| CreatePayout (r : payout_request)
| RequestPayoutByEmail (r : payout_request).

Definition setLoading (b : bool) : exec state effect unit :=
  emit (SetLoading b) ;; modify (fun _ => {| loading := b |}).

(** [s.slice(from, to)] for constant [0 <= from <= to]. *)
Definition slice (from to : nat) (s : string) : string :=
  String.substring from (to - from) s.

(** The decimal text of an integer, as a template prints it. *)
Definition string_of_Z (z : Z) : string :=
  NilZero.string_of_int (Z.to_int z).

(** [`ui-${Date.now()}-${Math.random().toString(36).slice(2, 8)}`];
    [now] is [Date.now()] and [random36] the text
    [Math.random().toString(36)]. *)
Definition idempotencyKey (now : Z) (random36 : string) : string :=
  "ui-" +:+ string_of_Z now +:+ "-" +:+ slice 2 8 random36.

Definition is_undefined (v : value) : bool :=
  match v with VUndefined => true | _ => false end.

(** [typeof getPayload === "function" ? getPayload() : undefined]; the
    call is made outside the [try] block, so what it throws escapes the
    handler. *)
Definition call_getPayload (p : Props) : exec state effect (option WithdrawPayload) :=
  match getPayload p with
  | NotAFunction => ret None
  | GetterReturns r => ret r
  | GetterThrows x => throw x
  end.

(** [payloadFromGetter ?? (amountProp !== undefined || toEmailProp ? {...} : null)] *)
Definition or_props (payloadFromGetter : option WithdrawPayload) (p : Props)
    : option WithdrawPayload :=
  match payloadFromGetter with
  | Some pl => Some pl
  | None =>
      if negb (is_undefined (amountProp p)) || truthy (toEmailProp p)
      then Some {| amount := amountProp p; toEmail := toEmailProp p; note := noteProp p |}
      else None
  end.

(** The payload a click resolves; none when [getPayload()] throws. *)
Definition payload (p : Props) : option WithdrawPayload :=
  match getPayload p with
  | NotAFunction => or_props None p
  | GetterReturns r => or_props r p
  | GetterThrows _ => None
  end.

(** [(res && res.payoutId) || (res && res.id) || ""] *)
Definition extract_payoutId (res : option response) : value :=
  match res with
  | Some r => or_else (or_else (payoutId r) (id r)) (VStr "")
  | None => VStr ""
  end.

Definition missing_payload : error :=
  Err "Withdrawal payload not provided. Provide amount/toEmail props or a getPayload() function.".
Definition invalid_amount : error := Err "Invalid withdrawal amount.".
Definition missing_recipient : error := Err "Recipient email required.".
Definition no_identifier : error := Err "No payout id returned from server.".

(** The body of the [try] block, after [setLoading(true)]. *)
Definition create_and_report (p : Props) (a : number) (email : string)
    (now : Z) (random36 : string) (net : settled) : exec state effect unit :=
  let req := {| req_amount := a; req_toEmail := email; req_note := noteProp p;
                req_apiKey := apiKey p;
                req_idempotencyKey := idempotencyKey now random36 |} in
  emit (if createPayout p then CreatePayout req else RequestPayoutByEmail req) ;;
  match net with
  | Rejects x => throw x
  | Resolves res =>
      let pid := extract_payoutId res in
      if negb (truthy pid) then invoke (onError p) (OnError no_identifier) else
      invoke (onCreated p) (OnCreated pid a) ;;
      invoke (onApproved p) (OnApproved pid a)
  end.

(** The click handler.  [now] and [random36] feed the idempotency key
    and [net] is the way the create call settles, if it is reached. *)
Definition handleClick (p : Props) (now : Z) (random36 : string) (net : settled)
    : exec state effect unit :=
  s <- get ;;
  if loading s || disabled p then ret tt else
  payloadFromGetter <- call_getPayload p ;;
  match or_props payloadFromGetter p with
  | None => invoke (onError p) (OnError missing_payload)
  | Some pl =>
      match amount pl with
      | VNum a =>
          if isNaN a || num_le a zero then invoke (onError p) (OnError invalid_amount) else
          if num_lt a (minAmount p)
          then invoke (onError p) (OnError (MinimumWithdrawal (minAmount p))) else
          let above :=
            match maxAmount p with
            | Some m => if num_gt a m then Some (MaximumWithdrawal m) else None
            | None => None
            end in
          match above with
          | Some e => invoke (onError p) (OnError e)
          | None =>
              match toEmail pl with
              | VStr email =>
                  if negb (truthy (VStr email))
                  then invoke (onError p) (OnError missing_recipient) else
                  setLoading true ;;
                  try_finally
                    (try_catch
                       (create_and_report p a email now random36 net)
                       (fun rawErr => invoke (onError p) (OnError (to_error rawErr))))
                    (setLoading false)
              | _ => invoke (onError p) (OnError missing_recipient)
              end
          end
      | _ => invoke (onError p) (OnError invalid_amount)
      end
  end.

Definition is_network (e : effect) : bool :=
  match e with CreatePayout _ | RequestPayoutByEmail _ => true | _ => false end.

Definition is_set_loading (e : effect) : bool :=
  match e with SetLoading _ => true | _ => false end.

(** *** The validation rules, written as a rule list

    Rule by rule, first failure wins: (1) a payload resolves;
    (2) the amount is a number greater than 0 (so not [NaN]);
    (3) the amount is not below [minAmount]; (4) the amount is not
    above a configured [maxAmount]; (5) the recipient is a non-empty
    string. *)
Definition positive_number (v : value) : bool :=
  match v with
  | VNum n => num_gt n zero
  | _ => false
  end.

Definition below (v : value) (bound : number) : bool :=
  match v with
  | VNum n => num_lt n bound
  | _ => false
  end.

Definition above (v : value) (bound : option number) : option number :=
  match v, bound with
  | VNum n, Some m => if num_gt n m then Some m else None
  | _, _ => None
  end.

Definition nonempty_string (v : value) : bool :=
  match v with
  | VStr s => negb (String.eqb s "")
  | _ => false
  end.

Definition first_failure (p : Props) : option error :=
  match payload p with
  | None => Some missing_payload
  | Some pl =>
      if negb (positive_number (amount pl)) then Some invalid_amount
      else if below (amount pl) (minAmount p) then Some (MinimumWithdrawal (minAmount p))
      else match above (amount pl) (maxAmount p) with
           | Some m => Some (MaximumWithdrawal m)
           | None =>
               if negb (nonempty_string (toEmail pl)) then Some missing_recipient
               else None
           end
  end.

(** The request a valid click sends. *)
Definition request_of (p : Props) (now : Z) (random36 : string) : option payout_request :=
  match payload p with
  | Some {| amount := VNum a; toEmail := VStr email |} =>
      Some {| req_amount := a; req_toEmail := email; req_note := noteProp p;
              req_apiKey := apiKey p;
              req_idempotencyKey := idempotencyKey now random36 |}
  | _ => None
  end.

Definition call (p : Props) (req : payout_request) : effect :=
  if createPayout p then CreatePayout req else RequestPayoutByEmail req.

(** The same props with other [amount] and [toEmail] props. *)
Definition with_inputs (a email : value) (p : Props) : Props :=
  {| amountProp := a; toEmailProp := email; noteProp := noteProp p;
     createPayout := createPayout p; apiKey := apiKey p;
     onCreated := onCreated p; onApproved := onApproved p; onError := onError p;
     getPayload := getPayload p; minAmountProp := minAmountProp p;
     maxAmount := maxAmount p; disabled := disabled p |}.

(** The same props with another [getPayload] prop. *)
Definition with_getter (g : getter) (p : Props) : Props :=
  {| amountProp := amountProp p; toEmailProp := toEmailProp p; noteProp := noteProp p;
     createPayout := createPayout p; apiKey := apiKey p;
     onCreated := onCreated p; onApproved := onApproved p; onError := onError p;
     getPayload := g; minAmountProp := minAmountProp p;
     maxAmount := maxAmount p; disabled := disabled p |}.

(** The identifier of a response: [payoutId] when it is usable, else
    [id]. *)
Definition identifier (res : option response) : value :=
  match res with
  | Some r => if truthy (payoutId r) then payoutId r else id r
  | None => VUndefined
  end.

End WithdrawButton.

(** ** Sample inputs, used to exercise the statements below *)
Module Samples.
Import JS PayButton.

Definition pay_origin : option string := Some "https://pay.adey.lol".

Definition pay_props : Props :=
  {| amount := VNum (Finite 10); apiKey := VStr "key"; callbackUrl := None;
     note := VUndefined; openPayUrlBase := "https://pay.adey.lol";
     onCreated := Returns; onApproved := Returns; onError := Returns |}.

Definition popup_message (o : string) (id : option string) (st : string) : MessageEvent :=
  {| origin := o;
     data := Some {| type := Some protocol_tag; paymentId := id; status := Some st |} |}.

(** The state after a payment [id] was created and its popup opened. *)
Definition created (id : string) : state :=
  {| handledRef := {[id]}; popupRef := Some {| closed := false |}; loading := false |}.

Definition withdraw_props (a : value) (email : value) : WithdrawButton.Props :=
  {| WithdrawButton.amountProp := a; WithdrawButton.toEmailProp := email;
     WithdrawButton.noteProp := VUndefined; WithdrawButton.createPayout := true;
     WithdrawButton.apiKey := VUndefined;
     WithdrawButton.onCreated := Returns; WithdrawButton.onApproved := Returns;
     WithdrawButton.onError := Returns;
     WithdrawButton.getPayload := WithdrawButton.NotAFunction;
     WithdrawButton.minAmountProp := None; WithdrawButton.maxAmount := None;
     WithdrawButton.disabled := false |}.

Definition withdraw_bounded (a : value) (email : value) (lo hi : option number)
    : WithdrawButton.Props :=
  {| WithdrawButton.amountProp := a; WithdrawButton.toEmailProp := email;
     WithdrawButton.noteProp := VUndefined; WithdrawButton.createPayout := true;
     WithdrawButton.apiKey := VUndefined;
     WithdrawButton.onCreated := Returns; WithdrawButton.onApproved := Returns;
     WithdrawButton.onError := Returns;
     WithdrawButton.getPayload := WithdrawButton.NotAFunction;
     WithdrawButton.minAmountProp := lo; WithdrawButton.maxAmount := hi;
     WithdrawButton.disabled := false |}.

Definition idle : WithdrawButton.state := {| WithdrawButton.loading := false |}.

End Samples.

(** ** Facts about the monad *)
Module ExecFacts.
Import JS Exec.

Section Laws.
Context {S E : Type}.

Lemma bind_get {B} (f : S -> exec S E B) s : bind get f s = f s s.
Proof. unfold bind, get. destruct (f s s) as [[t s'] c]. reflexivity. Qed.

Lemma bind_ret {A B} (a : A) (f : A -> exec S E B) s : bind (ret a) f s = f a s.
Proof. unfold bind, ret. destruct (f a s) as [[t s'] c]. reflexivity. Qed.

Lemma bind_modify {B} g (f : unit -> exec S E B) s :
  bind (modify g) f s = f tt (g s).
Proof. unfold bind, modify. destruct (f tt (g s)) as [[t s'] c]. reflexivity. Qed.

Lemma bind_emit {B} e (f : unit -> exec S E B) s :
  bind (emit e) f s
  = (e :: trace_of (f tt s), state_of (f tt s), completion_of (f tt s)).
Proof. unfold bind, emit. destruct (f tt s) as [[t s'] c]. reflexivity. Qed.

Lemma invoke_trace cb (e : E) (s : S) : trace_of (invoke cb e s) = fire cb e.
Proof. destruct cb; reflexivity. Qed.

Lemma invoke_state cb (e : E) (s : S) : state_of (invoke cb e s) = s.
Proof. destruct cb; reflexivity. Qed.
End Laws.
End ExecFacts.

(** ** Facts about the pay button *)
Module PayButtonFacts.
Import JS Exec ExecFacts PayButton.

Lemma count_app f t1 t2 : count f (t1 ++ t2) = count f t1 + count f t2.
Proof. unfold count. rewrite List.filter_app, length_app. reflexivity. Qed.

Lemma truthy_str_Some id : id <> "" -> truthy_str (Some id) = true.
Proof.
  intros H. simpl. destruct (String.eqb_spec id ""); [contradiction | reflexivity].
Qed.

Lemma status_key_fresh id : status_key (Some id) <> id.
Proof.
  intros H. apply (f_equal String.length) in H.
  unfold status_key in H. cbv [String.append] in H. simpl in H. lia.
Qed.

Lemma origin_ok_passes a ev :
  origin_ok a ev = true ->
  truthy_str a && negb (bool_decide (Some (origin ev) = a)) = false.
Proof.
  destruct a as [o|]; simpl; [|reflexivity].
  intros H. apply bool_decide_eq_true_1 in H. subst o.
  rewrite bool_decide_eq_true_2 by reflexivity. apply andb_false_r.
Qed.

(** Once the status key of the session is recorded, every message and
    every hook status of that session is a no-op. *)
Lemma absorbed p a id e s :
  id <> "" -> for_session id e = true -> status_key (Some id) ∈ handledRef s ->
  step p a e s = ([], s, Normal tt).
Proof.
  intros Hid He Hk. destruct e as [c o | c ev | c st | o n]; simpl in He; try discriminate.
  - apply andb_prop in He as [Hc Hi]. apply bool_decide_eq_true_1 in Hc. subst c.
    apply orb_prop in Hi. unfold msg_data in Hi.
    simpl. unfold handleMessage.
    destruct (truthy_str a && negb (bool_decide (Some (origin ev) = a))); [reflexivity|].
    destruct (negb (bool_decide (type (default empty_data (data ev)) = Some protocol_tag)));
      [reflexivity|].
    destruct Hi as [Hi | Hi]; apply bool_decide_eq_true_1 in Hi; rewrite Hi;
      rewrite ?(truthy_str_Some _ Hid), ?(bool_decide_eq_true_2 (Some id = Some id))
        by reflexivity;
      cbn [truthy_str andb negb subject]; rewrite bind_get;
      rewrite bool_decide_eq_true_2 by assumption; reflexivity.
  - apply bool_decide_eq_true_1 in He. subst c. simpl. unfold statusEffect.
    destruct (negb (truthy_str st) || negb (truthy_str (Some id))); [reflexivity|].
    rewrite bind_get. rewrite bool_decide_eq_true_2 by assumption. reflexivity.
Qed.

Lemma run_absorbed p a id es s :
  id <> "" -> Forall (fun e => for_session id e = true) es ->
  status_key (Some id) ∈ handledRef s ->
  run p a es s = ([], s).
Proof.
  intros Hid Hes Hk. induction Hes as [|e es He _ IH]; [reflexivity|].
  simpl. rewrite (absorbed p a id e s Hid He Hk).
  unfold state_of, trace_of. simpl. rewrite IH. reflexivity.
Qed.

Lemma message_passes p a id ev s :
  id <> "" -> for_session id (Message (Some id) ev) = true ->
  truthy_str a && negb (bool_decide (Some (origin ev) = a)) = false ->
  type (msg_data ev) = Some protocol_tag ->
  status_key (Some id) ∉ handledRef s ->
  handleMessage p a (Some id) ev s =
    (if bool_decide (status (msg_data ev) = Some "approved") then on_approved p true id
     else if bool_decide (status (msg_data ev) = Some "failed")
          then on_failed p "Payment failed (popup)" id
          else ret tt) s.
Proof.
  intros Hid He Ho Ht Hk. simpl in He.
  rewrite bool_decide_eq_true_2 in He by reflexivity. simpl in He.
  apply orb_prop in He. unfold handleMessage. fold (msg_data ev).
  rewrite Ho, Ht.
  rewrite (bool_decide_eq_true_2 (Some protocol_tag = Some protocol_tag)) by reflexivity.
  cbn [negb].
  destruct He as [Hi | Hi]; apply bool_decide_eq_true_1 in Hi; rewrite Hi;
    rewrite ?(truthy_str_Some _ Hid), ?(bool_decide_eq_true_2 (Some id = Some id))
      by reflexivity;
    cbn [truthy_str andb negb subject]; rewrite bind_get;
    rewrite bool_decide_eq_false_2 by assumption; reflexivity.
Qed.

Lemma status_passes p id st s :
  id <> "" -> status_key (Some id) ∉ handledRef s ->
  statusEffect p (Some id) st s =
    (if bool_decide (st = Some "approved") then on_approved p false id
     else if bool_decide (st = Some "failed") then on_failed p "Payment failed" id
          else ret tt) s.
Proof.
  intros Hid Hk. unfold statusEffect. rewrite (truthy_str_Some _ Hid).
  destruct (truthy_str st) eqn:Hst; cbn [negb orb].
  - rewrite bind_get. rewrite bool_decide_eq_false_2 by assumption. reflexivity.
  - destruct st as [x|]; [|reflexivity].
    simpl in Hst. destruct (String.eqb_spec x ""); [subst x|discriminate]. reflexivity.
Qed.

Ltac run_handler :=
  unfold on_approved, on_failed, close_popup, setLoading, invoke, try_catch, try_finally,
    bind, ret, throw, emit, get, modify, trace_of, state_of, completion_of;
  repeat (cbn -[String.append status_key];
          match goal with
          | |- context [bool_decide ?P] => destruct (bool_decide_reflect P)
          | |- context [if ?b then _ else _] => destruct b eqn:?
          | |- context [match ?x with _ => _ end] =>
              lazymatch x with
              | context [match _ with _ => _ end] => fail
              | context [if _ then _ else _] => fail
              | _ => destruct x eqn:?
              end
          end);
  cbn -[String.append status_key].

Lemma on_approved_facts p rescue id s :
  let r := on_approved p rescue id s in
  count is_approved (trace_of r) = length (fire (onApproved p) (OnApproved (Some id)))
  /\ count is_terminal (trace_of r) <= 1
  /\ (onApproved p <> Absent -> In (OnApproved (Some id)) (trace_of r))
  /\ handledRef (state_of r) = {[status_key (Some id)]} ∪ handledRef s.
Proof.
  unfold on_approved.
  destruct s as [h [[[|]]|] l], rescue, (onApproved p); cbn -[status_key];
    repeat split; intros; try lia; try congruence; auto.
Qed.

Lemma on_approved_returns p rescue id s :
  onApproved p = Returns ->
  let r := on_approved p rescue id s in
  trace_of r = OnApproved (Some id) :: (if popup_open s then [PopupClose] else [])
  /\ popup_open (state_of r) = false.
Proof.
  intros E. destruct s as [h [[[|]]|] l], rescue; unfold on_approved; rewrite E;
    cbn -[status_key]; split; reflexivity.
Qed.

Lemma on_failed_facts p msg id s :
  let r := on_failed p msg id s in
  trace_of r = fire (onError p) (OnError (Err msg))
  /\ state_of r = add_handled (status_key (Some id)) s.
Proof. unfold on_failed. destruct (onError p); cbn -[status_key]; split; reflexivity. Qed.

Lemma count_fire_le f cb e : count f (fire cb e) <= 1.
Proof. destruct cb; unfold count; cbn; try destruct (f e); cbn; lia. Qed.

(** One step of a session's own events: at most one terminal callback,
    and a terminal callback records the status key. *)
Lemma step_for_session p a id e s :
  id <> "" -> for_session id e = true -> status_key (Some id) ∉ handledRef s ->
  let r := step p a e s in
  count is_terminal (trace_of r) <= 1
  /\ (count is_terminal (trace_of r) = 1 -> status_key (Some id) ∈ handledRef (state_of r)).
Proof.
  intros Hid He Hk.
  assert (Happ : forall rescue,
    let r := on_approved p rescue id s in
    count is_terminal (trace_of r) <= 1
    /\ (count is_terminal (trace_of r) = 1 -> status_key (Some id) ∈ handledRef (state_of r))).
  { intros rescue. destruct (on_approved_facts p rescue id s) as (_ & H1 & _ & H2).
    cbn zeta. split; [exact H1|]. intros _. rewrite H2. apply elem_of_union_l, elem_of_singleton. reflexivity. }
  assert (Hfail : forall msg,
    let r := on_failed p msg id s in
    count is_terminal (trace_of r) <= 1
    /\ (count is_terminal (trace_of r) = 1 -> status_key (Some id) ∈ handledRef (state_of r))).
  { intros msg. destruct (on_failed_facts p msg id s) as (H1 & H2).
    cbn zeta. rewrite H1, H2. split; [apply count_fire_le|]. intros _. cbn. apply elem_of_union_l, elem_of_singleton. reflexivity. }
  assert (Hnone : let r : list effect * state * completion unit := ([], s, Normal tt) in
    count is_terminal (trace_of r) <= 1
    /\ (count is_terminal (trace_of r) = 1 -> status_key (Some id) ∈ handledRef (state_of r))).
  { cbn. split; [lia | discriminate]. }
  destruct e as [c o | c ev | c st | o n]; simpl in He; try discriminate.
  - pose proof He as He'. apply andb_prop in He as [Hc _].
    apply bool_decide_eq_true_1 in Hc. subst c. cbn [step].
    destruct (truthy_str a && negb (bool_decide (Some (origin ev) = a))) eqn:Ho.
    { unfold handleMessage. rewrite Ho. exact Hnone. }
    destruct (bool_decide_reflect (type (msg_data ev) = Some protocol_tag)) as [Ht|Ht].
    2:{ unfold handleMessage. rewrite Ho. fold (msg_data ev).
        rewrite bool_decide_eq_false_2 by assumption. exact Hnone. }
    rewrite (message_passes p a id ev s Hid He' Ho Ht Hk).
    repeat case_bool_decide; auto.
  - apply bool_decide_eq_true_1 in He. subst c. cbn [step].
    rewrite (status_passes p id st s Hid Hk).
    repeat case_bool_decide; auto.
Qed.

Lemma run_cons p a e es s :
  run p a (e :: es) s
  = (trace_of (step p a e s) ++ (run p a es (state_of (step p a e s))).1,
     (run p a es (state_of (step p a e s))).2).
Proof. reflexivity. Qed.

Lemma run_terminal_le p a id es s :
  id <> "" -> Forall (fun e => for_session id e = true) es ->
  count is_terminal (run p a es s).1 <= 1.
Proof.
  intros Hid Hes. revert s. induction Hes as [|e es He Hes IH]; intros s; [cbn; lia|].
  destruct (decide (status_key (Some id) ∈ handledRef s)) as [Hk|Hk].
  { rewrite (run_absorbed p a id (e :: es) s Hid (Forall_cons_2 _ _ _ He Hes) Hk). cbn. lia. }
  rewrite run_cons. cbn [fst]. rewrite count_app.
  destruct (step_for_session p a id e s Hid He Hk) as [Hle Hin].
  destruct (decide (count is_terminal (trace_of (step p a e s)) = 1)) as [H1|H1].
  - rewrite (run_absorbed p a id es _ Hid Hes (Hin H1)). cbn. lia.
  - specialize (IH (state_of (step p a e s))). lia.
Qed.
Lemma handleMessage_frame p a c ev s id :
  let r := handleMessage p a c ev s in
  count (is_created id) (trace_of r) = 0
  /\ handledRef s ⊆ handledRef (state_of r)
  /\ loading (state_of r) = loading s.
Proof.
  unfold handleMessage. run_handler. all: repeat split; try reflexivity; set_solver.
Qed.

Lemma statusEffect_frame p c st s id :
  let r := statusEffect p c st s in
  count (is_created id) (trace_of r) = 0
  /\ handledRef s ⊆ handledRef (state_of r)
  /\ loading (state_of r) = loading s.
Proof.
  unfold statusEffect. run_handler. all: repeat split; try reflexivity; set_solver.
Qed.

Lemma handleClick_frame p o net s id :
  let r := handleClick p o net s in
  count (is_created id) (trace_of r) = 0
  /\ handledRef (state_of r) = handledRef s
  /\ popupRef (state_of r) = popupRef s.
Proof.
  unfold handleClick. run_handler. all: repeat split; reflexivity.
Qed.

Lemma creationEffect_frame p c opened s id :
  let r := creationEffect p c opened s in
  handledRef s ⊆ handledRef (state_of r)
  /\ count (is_created id) (trace_of r) <= 1
  /\ (id ∈ handledRef s -> count (is_created id) (trace_of r) = 0)
  /\ (count (is_created id) (trace_of r) = 1 -> id ∈ handledRef (state_of r))
  /\ loading (state_of r) = loading s.
Proof.
  unfold creationEffect. run_handler.
  all: repeat split; intros; subst; try reflexivity; try lia; try discriminate;
    try contradiction; set_solver.
Qed.

Lemma step_created p a e s id :
  let r := step p a e s in
  handledRef s ⊆ handledRef (state_of r)
  /\ count (is_created id) (trace_of r) <= 1
  /\ (id ∈ handledRef s -> count (is_created id) (trace_of r) = 0)
  /\ (count (is_created id) (trace_of r) = 1 -> id ∈ handledRef (state_of r)).
Proof.
  destruct e as [c o | c ev | c st | o n]; cbn [step].
  - destruct (creationEffect_frame p c o s id) as (H1 & H2 & H3 & H4 & _). auto.
  - destruct (handleMessage_frame p a c ev s id) as (H1 & H2 & _).
    cbn zeta. rewrite H1. repeat split; auto; try lia; discriminate.
  - destruct (statusEffect_frame p c st s id) as (H1 & H2 & _).
    cbn zeta. rewrite H1. repeat split; auto; try lia; discriminate.
  - destruct (handleClick_frame p o n s id) as (H1 & H2 & _).
    cbn zeta. rewrite H1, H2. repeat split; auto; try lia; discriminate.
Qed.

Lemma run_created_none p a id es s :
  id ∈ handledRef s -> count (is_created id) (run p a es s).1 = 0.
Proof.
  revert s. induction es as [|e es IH]; intros s Hin; [reflexivity|].
  rewrite run_cons. cbn [fst]. rewrite count_app.
  destruct (step_created p a e s id) as (Hsub & _ & H0 & _).
  rewrite (H0 Hin), IH; [reflexivity | set_solver].
Qed.

Lemma run_created_le p a id es s : count (is_created id) (run p a es s).1 <= 1.
Proof.
  revert s. induction es as [|e es IH]; intros s; [cbn; lia|].
  rewrite run_cons. cbn [fst]. rewrite count_app.
  destruct (step_created p a e s id) as (_ & Hle & _ & H1).
  destruct (decide (count (is_created id) (trace_of (step p a e s)) = 1)) as [E|E].
  - rewrite (run_created_none p a id es _ (H1 E)). lia.
  - specialize (IH (state_of (step p a e s))). lia.
Qed.

Lemma reports_for_session st id a e : reports st id a e = true -> for_session id e = true.
Proof. unfold reports. intros H. apply andb_prop in H as [H _]. exact H. Qed.

(** What a step does with an event that reports [st] for the session,
    while the status key is not yet recorded. *)
Lemma step_reports p a st id e s :
  id <> "" -> reports st id a e = true -> status_key (Some id) ∉ handledRef s ->
  step p a e s =
    (if bool_decide (Some st = Some "approved")
     then on_approved p (match e with Message _ _ => true | _ => false end) id
     else if bool_decide (Some st = Some "failed")
          then on_failed p (match failure_error e with Err m => m | _ => "" end) id
          else ret tt) s.
Proof.
  intros Hid Hr Hk. pose proof (reports_for_session _ _ _ _ Hr) as Hf.
  unfold reports in Hr. rewrite Hf in Hr. cbn [andb] in Hr.
  destruct e as [c o | c ev | c s0 | o n]; try discriminate.
  - apply andb_prop in Hr as [Hr Hs]. apply andb_prop in Hr as [Ho Ht].
    apply bool_decide_eq_true_1 in Hs, Ht.
    pose proof Hf as Hf'. simpl in Hf'. apply andb_prop in Hf' as [Hc _].
    apply bool_decide_eq_true_1 in Hc. subst c. cbn [step].
    rewrite (message_passes p a id ev s Hid Hf (origin_ok_passes _ _ Ho) Ht Hk).
    rewrite Hs. reflexivity.
  - apply bool_decide_eq_true_1 in Hr. subst s0.
    simpl in Hf. apply bool_decide_eq_true_1 in Hf. subst c. cbn [step].
    rewrite (status_passes p id (Some st) s Hid Hk). reflexivity.
Qed.

(** C1: however often and through whichever channel ["approved"] is
    delivered for the session's id, [onApproved] is called exactly
    once, by the first delivery; every later delivery changes nothing
    and calls nothing. *)
Theorem approved_exactly_once p a id e es s :
  id <> "" -> onApproved p <> Absent -> status_key (Some id) ∉ handledRef s ->
  Forall (fun d => reports "approved" id a d = true) (e :: es) ->
  count is_approved (run p a (e :: es) s).1 = 1
  /\ In (OnApproved (Some id)) (trace_of (step p a e s))
  /\ run p a es (state_of (step p a e s)) = ([], state_of (step p a e s)).
Proof.
  intros Hid Hcb Hk Hall. apply Forall_cons_1 in Hall as [He Hes].
  assert (Hsess : Forall (fun d => for_session id d = true) es).
  { eapply Forall_impl; [exact Hes|]. intros d. apply reports_for_session. }
  rewrite (step_reports p a _ id e s Hid He Hk).
  rewrite (bool_decide_eq_true_2 (Some "approved" = Some "approved")) by reflexivity.
  set (rescue := match e with Message _ _ => true | _ => false end).
  destruct (on_approved_facts p rescue id s) as (Hc & _ & Hin & Hh).
  assert (Hrest : run p a es (state_of (on_approved p rescue id s))
                  = ([], state_of (on_approved p rescue id s))).
  { apply (run_absorbed p a id); auto. rewrite Hh.
    apply elem_of_union_l, elem_of_singleton. reflexivity. }
  repeat split; auto.
  rewrite run_cons. cbn [fst]. rewrite count_app.
  rewrite (step_reports p a _ id e s Hid He Hk).
  rewrite (bool_decide_eq_true_2 (Some "approved" = Some "approved")) by reflexivity.
  fold rescue. rewrite Hrest, Hc. destruct (onApproved p); [contradiction | reflexivity..].
Qed.

Lemma approved_exactly_once_witness :
  count is_approved
    (run Samples.pay_props Samples.pay_origin
       [Message (Some "pay_9")
          (Samples.popup_message "https://pay.adey.lol" (Some "pay_9") "approved");
        StatusEffect (Some "pay_9") (Some "approved");
        Message (Some "pay_9")
          (Samples.popup_message "https://pay.adey.lol" None "approved")]
       (Samples.created "pay_9")).1 = 1.
Proof.
  refine (proj1 (approved_exactly_once Samples.pay_props Samples.pay_origin "pay_9"
                   _ _ (Samples.created "pay_9") _ _ _ _)).
  - discriminate.
  - discriminate.
  - vm_compute. discriminate.
  - repeat constructor.
Defined.

(** C2: [onCreated] is called at most once per payment id, whatever
    happens to the button; and over any sequence of messages and hook
    statuses of one session, at most one terminal callback
    ([onApproved], or [onError] for a failed payment) is called, at
    most once. *)
Theorem callbacks_at_most_once p a id any s0 es s :
  id <> "" -> Forall (fun e => for_session id e = true) es ->
  count (is_created id) (run p a any s0).1 <= 1
  /\ count is_terminal (run p a es s).1 <= 1.
Proof.
  intros Hid Hes. split; [apply run_created_le | exact (run_terminal_le p a id es s Hid Hes)].
Qed.

Lemma callbacks_at_most_once_witness :
  count (is_created "pay_9")
    (run Samples.pay_props Samples.pay_origin
       [PaymentIdEffect (Some "pay_9") (OpenReturns (Some {| closed := false |}));
        PaymentIdEffect (Some "pay_9") (OpenReturns (Some {| closed := false |}))]
       initial).1 <= 1
  /\ count is_terminal
       (run Samples.pay_props Samples.pay_origin
          [Message (Some "pay_9")
             (Samples.popup_message "https://pay.adey.lol" (Some "pay_9") "failed");
           StatusEffect (Some "pay_9") (Some "approved")]
          (Samples.created "pay_9")).1 <= 1.
Proof.
  apply (callbacks_at_most_once Samples.pay_props Samples.pay_origin "pay_9").
  - discriminate.
  - repeat constructor.
Defined.
(** C5: a message from another origin than the derived one, or naming
    another payment than the session's, or without the protocol tag,
    changes nothing and calls nothing; and without a derived origin the
    sender's origin plays no role. *)
Theorem rejected_message_is_inert p a c ev s :
  rejected a c ev ->
  handleMessage p a c ev s = ([], s, Normal tt)
  /\ forall c' ev' s' o',
       handleMessage p None c' {| origin := o'; data := data ev' |} s'
       = handleMessage p None c' ev' s'.
Proof.
  intros Hrej. split; [|reflexivity].
  unfold handleMessage. fold (msg_data ev).
  destruct Hrej as [[Ha Ho] | [(Hc & Hi & Hne) | Ht]].
  - rewrite Ha. rewrite bool_decide_eq_false_2 by assumption. reflexivity.
  - destruct (truthy_str a && negb (bool_decide (Some (origin ev) = a))); [reflexivity|].
    destruct (negb (bool_decide (type (msg_data ev) = Some protocol_tag))); [reflexivity|].
    rewrite Hc, Hi. rewrite bool_decide_eq_false_2 by assumption. reflexivity.
  - destruct (truthy_str a && negb (bool_decide (Some (origin ev) = a))); [reflexivity|].
    rewrite bool_decide_eq_false_2 by assumption. reflexivity.
Qed.

Lemma rejected_message_is_inert_witness :
  handleMessage Samples.pay_props Samples.pay_origin (Some "pay_9")
    (Samples.popup_message "https://evil.example" (Some "pay_9") "approved")
    (Samples.created "pay_9")
  = ([], Samples.created "pay_9", Normal tt).
Proof.
  refine (proj1 (rejected_message_is_inert Samples.pay_props Samples.pay_origin
                   (Some "pay_9") _ (Samples.created "pay_9") _)).
  left. split; [reflexivity | discriminate].
Defined.

(** C10: while the hook has no payment id, a protocol message that
    passes the origin check and reports ["approved"] for any id [i] is
    accepted: [onApproved] is called with [i] and the status key of [i]
    is recorded. *)
Theorem message_without_session_is_accepted p a ev i s :
  origin_ok a ev = true ->
  type (msg_data ev) = Some protocol_tag ->
  paymentId (msg_data ev) = Some i ->
  status (msg_data ev) = Some "approved" ->
  status_key (Some i) ∉ handledRef s ->
  onApproved p <> Absent ->
  let r := handleMessage p a None ev s in
  In (OnApproved (Some i)) (trace_of r)
  /\ count is_approved (trace_of r) = 1
  /\ status_key (Some i) ∈ handledRef (state_of r).
Proof.
  intros Ho Ht Hi Hs Hk Hcb.
  assert (E : handleMessage p a None ev s = on_approved p true i s).
  { unfold handleMessage. fold (msg_data ev).
    rewrite (origin_ok_passes _ _ Ho), Ht, Hi, Hs.
    rewrite (bool_decide_eq_true_2 (Some protocol_tag = Some protocol_tag)) by reflexivity.
    cbn [negb truthy_str andb subject]. rewrite bind_get.
    rewrite bool_decide_eq_false_2 by assumption.
    rewrite (bool_decide_eq_true_2 (Some "approved" = Some "approved")) by reflexivity.
    reflexivity. }
  cbn zeta. rewrite E.
  destruct (on_approved_facts p true i s) as (Hc & _ & Hin & Hh).
  repeat split; auto.
  - rewrite Hc. destruct (onApproved p); [contradiction | reflexivity..].
  - rewrite Hh. apply elem_of_union_l, elem_of_singleton. reflexivity.
Qed.

Lemma message_without_session_is_accepted_witness :
  In (OnApproved (Some "stray_1"))
    (trace_of (handleMessage Samples.pay_props Samples.pay_origin None
                 (Samples.popup_message "https://pay.adey.lol" (Some "stray_1") "approved")
                 initial)).
Proof.
  refine (proj1 (message_without_session_is_accepted Samples.pay_props Samples.pay_origin
                   _ "stray_1" initial _ _ _ _ _ _)).
  - reflexivity.
  - reflexivity.
  - reflexivity.
  - reflexivity.
  - vm_compute. discriminate.
  - discriminate.
Defined.

(** C6: when [window.open] gives no handle, [onError] gets the popup
    error, [onCreated] is still called, the status key stays free, and
    a later ["approved"] from the hook calls [onApproved] once. *)
Theorem popup_blocked_keeps_session_open p id opened err s :
  id <> "" -> id ∉ handledRef s -> status_key (Some id) ∉ handledRef s ->
  open_failure opened = Some err ->
  onError p = Returns -> onCreated p = Returns -> onApproved p <> Absent ->
  let r := creationEffect p (Some id) opened s in
  (trace_of r
   = [WindowOpen (openPayUrlBase p) id; ConsoleError; OnError err; OnCreated id])
  /\ (status_key (Some id) ∉ handledRef (state_of r))
  /\ count is_approved
       (trace_of (statusEffect p (Some id) (Some "approved") (state_of r))) = 1
  /\ In (OnApproved (Some id))
       (trace_of (statusEffect p (Some id) (Some "approved") (state_of r))).
Proof.
  intros Hid Hnew Hk Hop He Hc Ha.
  assert (E : creationEffect p (Some id) opened s
              = ([WindowOpen (openPayUrlBase p) id; ConsoleError; OnError err; OnCreated id],
                 match opened with
                 | OpenReturns w => set_popup w (add_handled id s)
                 | OpenThrows _ => add_handled id s
                 end, Normal tt)).
  { unfold creationEffect. rewrite (truthy_str_Some _ Hid). cbn [negb].
    rewrite bind_get. rewrite bool_decide_eq_false_2 by assumption.
    rewrite He, Hc.
    destruct opened as [[w|]|x]; simpl in Hop; try discriminate;
      injection Hop as <-; reflexivity. }
  assert (Hk' : status_key (Some id) ∉ handledRef (state_of (creationEffect p (Some id) opened s))).
  { rewrite E. assert (H : status_key (Some id) ∉ handledRef (add_handled id s)).
    { cbn. intros [H%elem_of_singleton|H]%elem_of_union;
        [exact (status_key_fresh id H) | exact (Hk H)]. }
    destruct opened as [w|x]; exact H. }
  cbn zeta. split; [rewrite E; reflexivity|]. split; [exact Hk'|].
  rewrite (status_passes p id _ _ Hid Hk').
  rewrite (bool_decide_eq_true_2 (Some "approved" = Some "approved")) by reflexivity.
  destruct (on_approved_facts p false id (state_of (creationEffect p (Some id) opened s)))
    as (Hcount & _ & Hin & _).
  split; [|auto]. rewrite Hcount. destruct (onApproved p); [contradiction | reflexivity..].
Qed.

Lemma popup_blocked_keeps_session_open_witness :
  trace_of (creationEffect Samples.pay_props (Some "pay_9") (OpenReturns None) initial)
  = [WindowOpen "https://pay.adey.lol" "pay_9"; ConsoleError; OnError popup_blocked;
     OnCreated "pay_9"].
Proof.
  refine (proj1 (popup_blocked_keeps_session_open Samples.pay_props "pay_9"
                   (OpenReturns None) popup_blocked initial _ _ _ _ _ _ _)).
  - discriminate.
  - vm_compute. discriminate.
  - vm_compute. discriminate.
  - reflexivity.
  - reflexivity.
  - reflexivity.
  - discriminate.
Defined.

(** C7, as the code has it: an accepted terminal event calls its
    callback once; the popup is closed on ["approved"] and left as it
    is on ["failed"], on both channels. *)
Theorem terminal_event_effects p a st id e s :
  id <> "" -> status_key (Some id) ∉ handledRef s ->
  onApproved p = Returns -> onError p = Returns ->
  st = "approved" \/ st = "failed" ->
  reports st id a e = true ->
  let r := step p a e s in
  trace_of r
  = (if bool_decide (st = "approved")
     then OnApproved (Some id) :: (if popup_open s then [PopupClose] else [])
     else [OnError (failure_error e)])
  /\ count is_terminal (trace_of r) = 1
  /\ (if bool_decide (st = "approved")
      then popup_open (state_of r) = false
      else popupRef (state_of r) = popupRef s).
Proof.
  intros Hid Hk Ha He Hst Hr.
  cbn zeta. rewrite (step_reports p a st id e s Hid Hr Hk).
  destruct Hst as [-> | ->].
  - rewrite (bool_decide_eq_true_2 (Some "approved" = Some "approved")) by reflexivity.
    rewrite (bool_decide_eq_true_2 ("approved" = "approved")) by reflexivity.
    destruct (on_approved_returns p (match e with Message _ _ => true | _ => false end)
                id s Ha) as [Ht Hp].
    rewrite Ht. repeat split; auto. destruct (popup_open s); reflexivity.
  - rewrite (bool_decide_eq_false_2 (Some "failed" = Some "approved")) by discriminate.
    rewrite (bool_decide_eq_true_2 (Some "failed" = Some "failed")) by reflexivity.
    rewrite (bool_decide_eq_false_2 ("failed" = "approved")) by discriminate.
    destruct (on_failed_facts p (match failure_error e with Err m => m | _ => "" end) id s)
      as [Ht Hs].
    rewrite Ht, Hs, He.
    destruct e as [c o | c ev | c s0 | o n]; try discriminate; repeat split; reflexivity.
Qed.

Lemma terminal_event_effects_witness :
  trace_of (step Samples.pay_props Samples.pay_origin
              (StatusEffect (Some "pay_9") (Some "approved")) (Samples.created "pay_9"))
  = [OnApproved (Some "pay_9"); PopupClose].
Proof.
  refine (proj1 (terminal_event_effects Samples.pay_props Samples.pay_origin "approved"
                   "pay_9" (StatusEffect (Some "pay_9") (Some "approved"))
                   (Samples.created "pay_9") _ _ _ _ _ _)).
  - discriminate.
  - vm_compute. discriminate.
  - reflexivity.
  - reflexivity.
  - left. reflexivity.
  - reflexivity.
Defined.

(** C7 as stated fails: an accepted ["failed"] message calls [onError]
    and neither closes the popup nor asks for it. *)
Lemma failed_leaves_popup_open :
  let r := step Samples.pay_props Samples.pay_origin
             (Message (Some "pay_9")
                (Samples.popup_message "https://pay.adey.lol" (Some "pay_9") "failed"))
             (Samples.created "pay_9") in
  trace_of r = [OnError (Err "Payment failed (popup)")]
  /\ ~ In PopupClose (trace_of r)
  /\ popupRef (state_of r) = Some {| closed := false |}
  /\ popup_open (state_of r) = true.
Proof.
  vm_compute. repeat split; try reflexivity. intros [H|[]]. discriminate.
Qed.
(** The trace and the final state of a click that is not ignored. *)
Lemma pay_click_unfold p o net s :
  loading s = false ->
  let r := handleClick p o net s in
  trace_of r
  = SetLoading true ::
    match first_failure p with
    | Some e => ConsoleError :: fire (onError p) (OnError e)
    | None =>
        StartPayment (request_of p o) ::
        match net with
        | Resolves => []
        | Rejects x => ConsoleError :: fire (onError p) (OnError (to_error x))
        end
    end ++ [SetLoading false]
  /\ state_of r = set_loading false s.
Proof.
  intros Hl. unfold handleClick. rewrite bind_get, Hl.
  unfold first_failure, request_of, invalid_amount, num_gt.
  destruct (amount p) as [| |b|n|x|]; [| | |destruct n as [| | |q]| |].
  all: run_handler; split; reflexivity.
Qed.
End PayButtonFacts.


(** ** Facts about the withdraw button *)
Module WithdrawFacts.
Import JS Exec ExecFacts WithdrawButton.

#[local] Arguments String.append : simpl nomatch.

(** *** The idempotency key *)

Lemma uint_split d1 d2 r1 r2 :
  NilEmpty.string_of_uint d1 +:+ String "-"%char r1
  = NilEmpty.string_of_uint d2 +:+ String "-"%char r2 ->
  d1 = d2 /\ r1 = r2.
Proof.
  revert d2. induction d1 as [|d1 IH|d1 IH|d1 IH|d1 IH|d1 IH|d1 IH|d1 IH|d1 IH|d1 IH|d1 IH];
    intros [|d2|d2|d2|d2|d2|d2|d2|d2|d2|d2]; simpl; intros H; try discriminate H;
    injection H as H; try (apply IH in H as [-> ->]); subst; split; reflexivity.
Qed.

Lemma to_uint_nonnil p : Pos.to_uint p <> Decimal.Nil.
Proof.
  intros H. pose proof (DecimalPos.Unsigned.of_to p) as E. rewrite H in E. discriminate E.
Qed.

Lemma nilzero_nonnil d : d <> Decimal.Nil -> NilZero.string_of_uint d = NilEmpty.string_of_uint d.
Proof. destruct d; [contradiction | reflexivity..]. Qed.

Lemma digit_first d r : d <> Decimal.Nil ->
  exists c rest, NilEmpty.string_of_uint d +:+ r = String c rest /\ c <> "-"%char.
Proof.
  destruct d; [contradiction|..]; intros _; simpl; eexists _, _; (split; [reflexivity|discriminate]).
Qed.

Lemma string_of_Z_split z1 z2 r1 r2 :
  string_of_Z z1 +:+ String "-"%char r1 = string_of_Z z2 +:+ String "-"%char r2 ->
  z1 = z2 /\ r1 = r2.
Proof.
  unfold string_of_Z. intros H.
  assert (Hn : forall z, match Z.to_int z with
                         | Decimal.Pos d | Decimal.Neg d => d <> Decimal.Nil end).
  { intros [|p|p]; simpl; [discriminate | apply to_uint_nonnil..]. }
  pose proof (Hn z1) as H1. pose proof (Hn z2) as H2.
  assert (Z.to_int z1 = Z.to_int z2 /\ r1 = r2) as [E ->].
  { destruct (Z.to_int z1) as [d1|d1], (Z.to_int z2) as [d2|d2];
      unfold NilZero.string_of_int in H;
      rewrite !nilzero_nonnil in H by assumption.
    - apply uint_split in H as [-> ->]. split; reflexivity.
    - destruct (digit_first d1 (String "-"%char r1) H1) as (c & rest & E & Hc).
      rewrite E in H. simpl in H. injection H as H _. contradiction.
    - destruct (digit_first d2 (String "-"%char r2) H2) as (c & rest & E & Hc).
      rewrite E in H. simpl in H. injection H as H _. symmetry in H. contradiction.
    - simpl in H. injection H as H. apply uint_split in H as [-> ->]. split; reflexivity. }
  split; [|reflexivity]. apply DecimalZ.to_int_inj. exact E.
Qed.

Lemma idempotencyKey_eq now1 r1 now2 r2 :
  idempotencyKey now1 r1 = idempotencyKey now2 r2 <->
  now1 = now2 /\ slice 2 8 r1 = slice 2 8 r2.
Proof.
  unfold idempotencyKey. split.
  - intros H. simpl in H. injection H as H. apply string_of_Z_split in H. exact H.
  - intros [-> ->]. reflexivity.
Qed.

(** C9, as the code has it: the key is ["ui-"], the decimal time, a
    dash and the six characters kept of the random text; two attempts
    get distinct keys when their times differ or the kept characters
    differ. *)
Theorem idempotencyKey_distinct now1 r1 now2 r2 :
  now1 <> now2 \/ slice 2 8 r1 <> slice 2 8 r2 ->
  idempotencyKey now1 r1 <> idempotencyKey now2 r2
  /\ idempotencyKey now1 r1 = "ui-" +:+ string_of_Z now1 +:+ "-" +:+ String.substring 2 6 r1.
Proof.
  intros H. split; [|reflexivity].
  intros E. apply idempotencyKey_eq in E as [E1 E2]. destruct H; contradiction.
Qed.

Lemma idempotencyKey_distinct_witness :
  idempotencyKey 1700000000000 "0.3lllllllllm" <> idempotencyKey 1700000000001 "0.3lllllllllm".
Proof.
  refine (proj1 (idempotencyKey_distinct 1700000000000 "0.3lllllllllm"
                   1700000000001 "0.3lllllllllm" _)).
  left. discriminate.
Defined.

(** C9 as stated fails: two attempts in the same millisecond whose
    random texts differ after the eighth character get the same key. *)
Lemma idempotencyKey_collision :
  "0.i0000002kd9" <> "0.i0000001a6n"
  /\ idempotencyKey 1700000000000 "0.i0000002kd9"
     = idempotencyKey 1700000000000 "0.i0000001a6n".
Proof. split; [discriminate | reflexivity]. Qed.

(** *** The click handler *)

Ltac break_conditions :=
  repeat (cbn -[String.append idempotencyKey Qle_bool minAmount];
          match goal with
          | H : _ = _ |- _ => discriminate H
          | |- context [if ?b then _ else _] => destruct b eqn:?
          | |- context [match ?x with _ => _ end] =>
              lazymatch x with
              | context [match _ with _ => _ end] => fail
              | context [if _ then _ else _] => fail
              | _ => destruct x eqn:?
              end
          end);
  cbn -[String.append idempotencyKey Qle_bool minAmount].

Lemma payload_resolved p pl :
  payload p = Some pl -> forall x, getPayload p <> GetterThrows x.
Proof. unfold payload. intros H x E. rewrite E in H. discriminate H. Qed.

Lemma valid_resolved p :
  first_failure p = None -> forall x, getPayload p <> GetterThrows x.
Proof.
  unfold first_failure. destruct (payload p) as [pl|] eqn:E; [|discriminate].
  intros _. exact (payload_resolved p pl E).
Qed.

(** The click handler is the call of the getter, the rule list and the
    create call. *)
Lemma click_unfold_any p now rnd net s :
  loading s = false -> disabled p = false ->
  handleClick p now rnd net s =
    match getPayload p with
    | GetterThrows x => ([], s, Thrown x)
    | _ =>
        match first_failure p, request_of p now rnd with
        | Some e, _ => invoke (onError p) (OnError e) s
        | None, Some req =>
            bind (setLoading true)
              (fun _ => try_finally
                 (try_catch
                    (create_and_report p (req_amount req) (req_toEmail req) now rnd net)
                    (fun rawErr => invoke (onError p) (OnError (to_error rawErr))))
                 (setLoading false)) s
        | None, None => ([], s, Normal tt)
        end
    end.
Proof.
  intros Hl Hd. unfold handleClick. rewrite bind_get, Hl, Hd. cbn [orb].
  unfold call_getPayload, first_failure, request_of, payload.
  destruct (getPayload p) as [|r|x]; [rewrite bind_ret|rewrite bind_ret|reflexivity].
  all: unfold positive_number, below, above, nonempty_string, num_gt.
  all: match goal with |- context [or_props ?r ?q] =>
         destruct (or_props r q) as [[a em nt]|]; [|reflexivity] end.
  all: cbn [amount toEmail].
  all: destruct a as [| |b|n|x|]; try reflexivity.
  all: destruct n as [| | |q]; try reflexivity.
  all: break_conditions; try reflexivity; try congruence.
Qed.

Lemma click_unfold p now rnd net s :
  loading s = false -> disabled p = false ->
  (forall x, getPayload p <> GetterThrows x) ->
  handleClick p now rnd net s =
    match first_failure p, request_of p now rnd with
    | Some e, _ => invoke (onError p) (OnError e) s
    | None, Some req =>
        bind (setLoading true)
          (fun _ => try_finally
             (try_catch
                (create_and_report p (req_amount req) (req_toEmail req) now rnd net)
                (fun rawErr => invoke (onError p) (OnError (to_error rawErr))))
             (setLoading false)) s
    | None, None => ([], s, Normal tt)
    end.
Proof.
  intros Hl Hd Hg. rewrite (click_unfold_any p now rnd net s Hl Hd).
  destruct (getPayload p) as [|r|x]; [reflexivity..|exfalso; exact (Hg x eq_refl)].
Qed.

Lemma request_of_valid p now rnd :
  first_failure p = None -> exists req, request_of p now rnd = Some req.
Proof.
  unfold first_failure, request_of, positive_number, nonempty_string.
  destruct (payload p) as [[a em nt]|]; [|discriminate].
  cbn [amount toEmail].
  destruct a as [| |b|n|x|]; try discriminate.
  destruct em as [| |b|m|x|]; break_conditions; intros; try discriminate; eauto.
Qed.

Lemma request_amount p req now rnd :
  request_of p now rnd = Some req ->
  req = {| req_amount := req_amount req; req_toEmail := req_toEmail req;
           req_note := noteProp p; req_apiKey := apiKey p;
           req_idempotencyKey := idempotencyKey now rnd |}.
Proof.
  unfold request_of. destruct (payload p) as [[a em nt]|]; [|discriminate].
  destruct a; try discriminate. destruct em; try discriminate.
  intros [= <-]. reflexivity.
Qed.

(** What a valid click does once the create call settles. *)
Lemma valid_click p now rnd net s req :
  loading s = false -> disabled p = false ->
  first_failure p = None -> request_of p now rnd = Some req ->
  let r := handleClick p now rnd net s in
  let a := req_amount req in
  trace_of r
  = SetLoading true :: call p req ::
    match net with
    | Rejects x => fire (onError p) (OnError (to_error x))
    | Resolves res =>
        if truthy (identifier res) then
          match onCreated p with
          | Throws x =>
              OnCreated (identifier res) a :: fire (onError p) (OnError (to_error x))
          | c =>
              fire c (OnCreated (identifier res) a)
              ++ fire (onApproved p) (OnApproved (identifier res) a)
              ++ match onApproved p with
                 | Throws x => fire (onError p) (OnError (to_error x))
                 | _ => []
                 end
          end
        else
          fire (onError p) (OnError no_identifier)
          ++ match onError p with
             | Throws x => [OnError (to_error x)]
             | _ => []
             end
    end ++ [SetLoading false]
  /\ loading (state_of r) = false.
Proof.
  intros Hl Hd Hv Hreq. cbn zeta.
  rewrite (click_unfold p now rnd net s Hl Hd (valid_resolved p Hv)), Hv, Hreq.
  rewrite (request_amount p req now rnd Hreq). cbn [req_amount req_toEmail].
  generalize (req_amount req) (req_toEmail req). intros a em.
  unfold create_and_report, call, identifier, extract_payoutId, or_else, setLoading.
  destruct net as [[[pid i]|]|x]; cbn [payoutId id].
  - destruct (truthy pid) eqn:Hp; [|destruct (truthy i) eqn:Hi]; rewrite ?Hp, ?Hi;
      destruct (createPayout p), (onCreated p), (onApproved p), (onError p);
      split; reflexivity.
  - destruct (createPayout p), (onError p); split; reflexivity.
  - destruct (createPayout p), (onError p); split; reflexivity.
Qed.

Lemma count_network_fire cb e :
  is_network e = false -> List.filter is_network (fire cb e) = [].
Proof. intros H. destruct cb; simpl; rewrite ?H; reflexivity. Qed.

(** C3, as the code has it: the withdraw click applies the rule list
    [first_failure] (payload, amount a number above 0, minimum,
    maximum, recipient), reports the first failure through [onError]
    and then neither touches the state nor calls the service; a valid
    click calls the service.  (When [getPayload()] itself throws, the
    click ends there: nothing is reported and nothing is called.)  The
    pay click rejects an amount that is no number, is [NaN] or is not
    above 0 with ["Invalid amount"] before any call to
    [startPayment]. *)
Theorem validation_first_failure wp now rnd net ws pp o pnet ps :
  loading ws = false -> disabled wp = false -> PayButton.loading ps = false ->
  let wr := handleClick wp now rnd net ws in
  let pr := PayButton.handleClick pp o pnet ps in
  match getPayload wp with
  | GetterThrows x => wr = ([], ws, Thrown x)
  | _ =>
      match first_failure wp with
      | Some e =>
          trace_of wr = fire (onError wp) (OnError e) /\ state_of wr = ws
          /\ List.filter is_network (trace_of wr) = []
      | None =>
          exists req, request_of wp now rnd = Some req /\ In (call wp req) (trace_of wr)
      end
  end
  /\ match PayButton.first_failure pp with
     | Some e =>
         trace_of pr
         = [PayButton.SetLoading true; PayButton.ConsoleError]
           ++ fire (PayButton.onError pp) (PayButton.OnError e)
           ++ [PayButton.SetLoading false]
         /\ List.filter PayButton.is_network (trace_of pr) = []
     | None => In (PayButton.StartPayment (PayButton.request_of pp o)) (trace_of pr)
     end.
Proof.
  intros Hl Hd Hpl. cbn zeta. split.
  - assert (Hok : (forall x, getPayload wp <> GetterThrows x) ->
                  match first_failure wp with
                  | Some e =>
                      trace_of (handleClick wp now rnd net ws) = fire (onError wp) (OnError e)
                      /\ state_of (handleClick wp now rnd net ws) = ws
                      /\ List.filter is_network (trace_of (handleClick wp now rnd net ws)) = []
                  | None =>
                      exists req, request_of wp now rnd = Some req
                                  /\ In (call wp req) (trace_of (handleClick wp now rnd net ws))
                  end).
    { intros Hg. destruct (first_failure wp) as [e|] eqn:Hv.
      - rewrite (click_unfold wp now rnd net ws Hl Hd Hg), Hv.
        rewrite invoke_trace, invoke_state. repeat split.
        apply count_network_fire. reflexivity.
      - destruct (request_of_valid wp now rnd Hv) as [req Hreq].
        exists req. split; [exact Hreq|].
        destruct (valid_click wp now rnd net ws req Hl Hd Hv Hreq) as [Ht _].
        rewrite Ht. right. left. reflexivity. }
    destruct (getPayload wp) as [|r|x] eqn:Eg.
    + apply Hok. discriminate.
    + apply Hok. discriminate.
    + rewrite (click_unfold_any wp now rnd net ws Hl Hd), Eg. reflexivity.
  - destruct (PayButtonFacts.pay_click_unfold pp o pnet ps Hpl) as [Ht _].
    rewrite Ht. destruct (PayButton.first_failure pp) as [e|].
    + split; [reflexivity|]. destruct (PayButton.onError pp); reflexivity.
    + right. left. reflexivity.
Qed.

Lemma validation_first_failure_witness :
  trace_of (handleClick (Samples.withdraw_props (VNum (Finite 3)) (VStr "a@b.com"))
              0 "0.i" (Resolves None) Samples.idle)
  = [OnError (MinimumWithdrawal (Finite 5))].
Proof.
  refine (proj1 (proj1 (validation_first_failure
                   (Samples.withdraw_props (VNum (Finite 3)) (VStr "a@b.com"))
                   0 "0.i" (Resolves None) Samples.idle
                   Samples.pay_props "https://shop.example" PayButton.Resolves
                   PayButton.initial _ _ _))); reflexivity.
Defined.

(** C3 as stated fails on rule 2: an infinite amount is not finite, yet
    it passes validation and is sent to the service. *)
Lemma infinite_amount_is_sent :
  let p := Samples.withdraw_props (VNum PosInf) (VStr "a@b.com") in
  let r := handleClick p 1700000000000 "0.3lllllllllm"
             (Resolves (Some {| payoutId := VStr "p_1"; id := VUndefined |}))
             Samples.idle in
  first_failure p = None
  /\ trace_of r
     = [SetLoading true;
        CreatePayout {| req_amount := PosInf; req_toEmail := "a@b.com";
                        req_note := VUndefined; req_apiKey := VUndefined;
                        req_idempotencyKey := "ui-1700000000000-3lllll" |};
        OnCreated (VStr "p_1") PosInf; OnApproved (VStr "p_1") PosInf;
        SetLoading false]
  /\ ~ In (OnError invalid_amount) (trace_of r).
Proof.
  cbn zeta. split; [reflexivity|]. split; [reflexivity|].
  intros H. vm_compute in H.
  repeat (destruct H as [H|H]; [discriminate H|]). exact H.
Qed.

(** C4: when the create call of a valid click resolves, the identifier
    is [payoutId] or else [id]; without one, [onError] gets
    ["No payout id returned from server."] and nothing else is called;
    with one, [onCreated] and then [onApproved] are called with it and
    the amount, once each. *)
Theorem payout_created_then_approved p now rnd res s req :
  loading s = false -> disabled p = false ->
  first_failure p = None -> request_of p now rnd = Some req ->
  onCreated p = Returns -> onApproved p = Returns -> onError p = Returns ->
  trace_of (handleClick p now rnd (Resolves res) s)
  = [SetLoading true; call p req]
    ++ (if truthy (identifier res)
        then [OnCreated (identifier res) (req_amount req);
              OnApproved (identifier res) (req_amount req)]
        else [OnError no_identifier])
    ++ [SetLoading false].
Proof.
  intros Hl Hd Hv Hreq Hc Ha He.
  destruct (valid_click p now rnd (Resolves res) s req Hl Hd Hv Hreq) as [Ht _].
  rewrite Ht, Hc, Ha, He. destruct (truthy (identifier res)); reflexivity.
Qed.

Lemma payout_created_then_approved_witness :
  trace_of (handleClick (Samples.withdraw_props (VNum (Finite 10)) (VStr "a@b.com"))
              1700000000000 "0.3lllllllllm"
              (Resolves (Some {| payoutId := VUndefined; id := VStr "p_1" |}))
              Samples.idle)
  = [SetLoading true;
     CreatePayout {| req_amount := Finite 10; req_toEmail := "a@b.com";
                     req_note := VUndefined; req_apiKey := VUndefined;
                     req_idempotencyKey := "ui-1700000000000-3lllll" |};
     OnCreated (VStr "p_1") (Finite 10); OnApproved (VStr "p_1") (Finite 10);
     SetLoading false].
Proof.
  refine (payout_created_then_approved
            (Samples.withdraw_props (VNum (Finite 10)) (VStr "a@b.com"))
            1700000000000 "0.3lllllllllm"
            (Some {| payoutId := VUndefined; id := VStr "p_1" |}) Samples.idle
            _ _ _ _ _ _ _ _); reflexivity.
Defined.

(** C8, as the code has it: a click that is not ignored because
    another one is in flight leaves [loading] false, whatever path it
    takes.  The flag is held from the moment it is set until the
    handler completes: the pay click sets it first and clears it last
    (when a check rejects or [startPayment] settles); the withdraw
    click either never sets it (rejected before the request, no call to
    the service) or sets it first and clears it last.  The popup effect,
    the message listener and the status effect, where the pay button's
    terminal outcomes arrive, never touch the flag. *)
Theorem loading_released pp o pnet ps wp now rnd wnet ws :
  PayButton.loading ps = false -> loading ws = false ->
  let pr := PayButton.handleClick pp o pnet ps in
  let wr := handleClick wp now rnd wnet ws in
  (PayButton.loading (state_of pr) = false
   /\ head (trace_of pr) = Some (PayButton.SetLoading true)
   /\ last (trace_of pr) = Some (PayButton.SetLoading false)
   /\ List.filter PayButton.is_set_loading (trace_of pr)
      = [PayButton.SetLoading true; PayButton.SetLoading false])
  /\ (loading (state_of wr) = false
      /\ (List.filter is_set_loading (trace_of wr) = []
          /\ List.filter is_network (trace_of wr) = []
          \/ head (trace_of wr) = Some (SetLoading true)
             /\ last (trace_of wr) = Some (SetLoading false)
             /\ List.filter is_set_loading (trace_of wr)
                = [SetLoading true; SetLoading false]))
  /\ (forall c opened st,
        PayButton.loading (state_of (PayButton.creationEffect pp c opened st))
        = PayButton.loading st)
  /\ (forall a c ev st,
        PayButton.loading (state_of (PayButton.handleMessage pp a c ev st))
        = PayButton.loading st)
  /\ (forall c status st,
        PayButton.loading (state_of (PayButton.statusEffect pp c status st))
        = PayButton.loading st).
Proof.
  intros Hpl Hwl. cbn zeta. split; [|split; [|split; [|split]]].
  - destruct (PayButtonFacts.pay_click_unfold pp o pnet ps Hpl) as [Ht Hs].
    rewrite Ht, Hs. split; [reflexivity|]. split; [reflexivity|].
    destruct (PayButton.first_failure pp) as [e|]; [|destruct pnet as [|x]];
      destruct (PayButton.onError pp); split; reflexivity.
  - destruct (disabled wp) eqn:Hd.
    { unfold handleClick. rewrite bind_get, Hwl, Hd. cbn. auto. }
    destruct (getPayload wp) as [|r|x] eqn:Eg.
    3:{ rewrite (click_unfold_any wp now rnd wnet ws Hwl Hd), Eg. cbn. auto. }
    all: assert (Hg : forall x, getPayload wp <> GetterThrows x)
           by (intros x; rewrite Eg; discriminate).
    all: destruct (first_failure wp) as [e|] eqn:Hv;
      [ rewrite (click_unfold wp now rnd wnet ws Hwl Hd Hg), Hv;
        rewrite invoke_trace, invoke_state; split; [exact Hwl|]; left;
        destruct (onError wp); split; reflexivity
      | destruct (request_of_valid wp now rnd Hv) as [req Hreq];
        destruct (valid_click wp now rnd wnet ws req Hwl Hd Hv Hreq) as [Ht Hs];
        rewrite Ht; split; [exact Hs|]; right; split; [reflexivity|];
        unfold call;
        destruct wnet as [res|x]; [destruct (truthy (identifier res))|];
          destruct (createPayout wp), (onCreated wp), (onApproved wp), (onError wp);
          split; reflexivity ].
  - intros c opened st.
    destruct (PayButtonFacts.creationEffect_frame pp c opened st "") as (_ & _ & _ & _ & H).
    exact H.
  - intros a c ev st.
    destruct (PayButtonFacts.handleMessage_frame pp a c ev st "") as (_ & _ & H). exact H.
  - intros c status st.
    destruct (PayButtonFacts.statusEffect_frame pp c status st "") as (_ & _ & H). exact H.
Qed.

Lemma loading_released_witness :
  PayButton.loading
    (state_of (PayButton.handleClick Samples.pay_props "https://shop.example"
                 (PayButton.Rejects (ThrownValue "offline")) PayButton.initial))
  = false.
Proof.
  refine (proj1 (proj1 (loading_released Samples.pay_props "https://shop.example"
                   (PayButton.Rejects (ThrownValue "offline")) PayButton.initial
                   (Samples.withdraw_props (VNum (Finite 10)) (VStr "a@b.com"))
                   0 "0.i" (Rejects (ThrownValue "offline")) Samples.idle _ _)));
    reflexivity.
Defined.

(** C8 as stated fails on its last clause: the pay click releases
    [loading] when [startPayment] settles, before the payment is
    created in the popup and long before it is approved. *)
Lemma loading_released_before_terminal :
  let click := PayButton.Click "https://shop.example" PayButton.Resolves in
  let created := PayButton.PaymentIdEffect (Some "pay_9")
                   (PayButton.OpenReturns (Some {| PayButton.closed := false |})) in
  let approved := PayButton.StatusEffect (Some "pay_9") (Some "approved") in
  (PayButton.run Samples.pay_props Samples.pay_origin [click; created; approved]
     PayButton.initial).1
  = [PayButton.SetLoading true;
     PayButton.StartPayment
       {| PayButton.req_amount := Finite 10; PayButton.req_apiKey := VStr "key";
          PayButton.req_callbackUrl := "https://shop.example";
          PayButton.req_note := VUndefined |};
     PayButton.SetLoading false;
     PayButton.WindowOpen "https://pay.adey.lol" "pay_9"; PayButton.PopupFocus;
     PayButton.OnCreated "pay_9";
     PayButton.OnApproved (Some "pay_9"); PayButton.PopupClose]
  /\ PayButton.loading
       (PayButton.run Samples.pay_props Samples.pay_origin [click; created]
          PayButton.initial).2 = false
  /\ PayButton.count PayButton.is_terminal
       (PayButton.run Samples.pay_props Samples.pay_origin [click; created]
          PayButton.initial).1 = 0.
Proof. cbn zeta. repeat split; reflexivity. Qed.
End WithdrawFacts.


(** ** More about the pay button: the registry, the popup, exceptions *)
Module PayButtonMore.
Import JS Exec ExecFacts PayButton PayButtonFacts.

(** The registry of handled keys only grows: no event removes a key. *)
Theorem registry_only_grows p a es s :
  handledRef s ⊆ handledRef (run p a es s).2.
Proof.
  revert s. induction es as [|e es IH]; intros s; [reflexivity|].
  rewrite run_cons. cbn [snd].
  destruct (step_created p a e s "") as (Hsub & _).
  etransitivity; [exact Hsub | apply IH].
Qed.

(** The first terminal outcome is final: after an accepted ["approved"]
    or ["failed"], every later message or hook status of the session,
    whatever it reports, changes nothing and calls nothing. *)
Theorem first_outcome_is_final p a st id e es s :
  id <> "" -> status_key (Some id) ∉ handledRef s ->
  st = "approved" \/ st = "failed" ->
  reports st id a e = true ->
  Forall (fun d => for_session id d = true) es ->
  run p a es (state_of (step p a e s)) = ([], state_of (step p a e s)).
Proof.
  intros Hid Hk Hst Hr Hes. apply (run_absorbed p a id); auto.
  rewrite (step_reports p a st id e s Hid Hr Hk).
  destruct Hst as [-> | ->].
  - rewrite (bool_decide_eq_true_2 (Some "approved" = Some "approved")) by reflexivity.
    destruct (on_approved_facts p (match e with Message _ _ => true | _ => false end) id s)
      as (_ & _ & _ & Hh).
    rewrite Hh. apply elem_of_union_l, elem_of_singleton. reflexivity.
  - rewrite (bool_decide_eq_false_2 (Some "failed" = Some "approved")) by discriminate.
    rewrite (bool_decide_eq_true_2 (Some "failed" = Some "failed")) by reflexivity.
    destruct (on_failed_facts p (match failure_error e with Err m => m | _ => "" end) id s)
      as [_ Hs].
    rewrite Hs. cbn. apply elem_of_union_l, elem_of_singleton. reflexivity.
Qed.

Lemma first_outcome_is_final_witness :
  (run Samples.pay_props Samples.pay_origin
     [StatusEffect (Some "pay_9") (Some "approved")]
     (state_of (step Samples.pay_props Samples.pay_origin
                  (Message (Some "pay_9")
                     (Samples.popup_message "https://pay.adey.lol" (Some "pay_9") "failed"))
                  (Samples.created "pay_9")))).1 = [].
Proof.
  refine (f_equal fst (first_outcome_is_final Samples.pay_props Samples.pay_origin "failed"
            "pay_9" _ _ (Samples.created "pay_9") _ _ _ _ _)).
  - discriminate.
  - vm_compute. discriminate.
  - right. reflexivity.
  - reflexivity.
  - repeat constructor.
Defined.

(** A status other than ["approved"] and ["failed"] is ignored and does
    not use up the session's status key. *)
Theorem other_status_is_ignored p a st id e s :
  id <> "" -> st <> "approved" -> st <> "failed" ->
  reports st id a e = true ->
  step p a e s = ([], s, Normal tt).
Proof.
  intros Hid Ha Hf Hr.
  destruct (decide (status_key (Some id) ∈ handledRef s)) as [Hk|Hk].
  - apply (absorbed p a id); auto. exact (reports_for_session _ _ _ _ Hr).
  - rewrite (step_reports p a st id e s Hid Hr Hk).
    rewrite !bool_decide_eq_false_2 by congruence. reflexivity.
Qed.

Lemma other_status_is_ignored_witness :
  step Samples.pay_props Samples.pay_origin
    (StatusEffect (Some "pay_9") (Some "pending")) (Samples.created "pay_9")
  = ([], Samples.created "pay_9", Normal tt).
Proof.
  refine (other_status_is_ignored Samples.pay_props Samples.pay_origin "pending" "pay_9"
            _ _ _ _ _ _).
  - discriminate.
  - discriminate.
  - discriminate.
  - reflexivity.
Defined.

Lemma creation_records p id opened s :
  id <> "" -> id ∈ handledRef (state_of (creationEffect p (Some id) opened s)).
Proof.
  intros Hid. unfold creationEffect. rewrite (truthy_str_Some _ Hid). cbn [negb].
  rewrite bind_get. destruct (bool_decide_reflect (id ∈ handledRef s)) as [H|H]; [exact H|].
  run_handler; set_solver.
Qed.

(** The creation effect acts once per payment id: when it runs again for
    the same id, however [window.open] would answer, it opens nothing
    and calls nothing; without an id it does nothing at all. *)
Theorem creation_runs_once p id o1 o2 s :
  id <> "" ->
  let s1 := state_of (creationEffect p (Some id) o1 s) in
  creationEffect p (Some id) o2 s1 = ([], s1, Normal tt)
  /\ creationEffect p None o1 s = ([], s, Normal tt)
  /\ creationEffect p (Some "") o1 s = ([], s, Normal tt).
Proof.
  intros Hid. cbn zeta. split; [|split; reflexivity].
  pose proof (creation_records p id o1 s Hid) as Hin.
  unfold creationEffect at 1. rewrite (truthy_str_Some _ Hid). cbn [negb].
  rewrite bind_get. rewrite bool_decide_eq_true_2 by assumption. reflexivity.
Qed.

Lemma creation_runs_once_witness :
  creationEffect Samples.pay_props (Some "pay_9") (OpenReturns None)
    (state_of (creationEffect Samples.pay_props (Some "pay_9")
                 (OpenReturns (Some {| closed := false |})) initial))
  = ([], state_of (creationEffect Samples.pay_props (Some "pay_9")
                     (OpenReturns (Some {| closed := false |})) initial), Normal tt).
Proof.
  refine (proj1 (creation_runs_once Samples.pay_props "pay_9"
                   (OpenReturns (Some {| closed := false |})) (OpenReturns None) initial _)).
  discriminate.
Defined.

(** When [window.open] returns a window for a new payment id, the effect
    records the id, keeps the window in [popupRef], focuses it and then
    calls [onCreated] with the id. *)
Theorem creation_opens_popup p id w s :
  id <> "" -> id ∉ handledRef s ->
  let r := creationEffect p (Some id) (OpenReturns (Some w)) s in
  trace_of r
  = [WindowOpen (openPayUrlBase p) id; PopupFocus] ++ fire (onCreated p) (OnCreated id)
  /\ popupRef (state_of r) = Some w
  /\ handledRef (state_of r) = {[id]} ∪ handledRef s
  /\ loading (state_of r) = loading s.
Proof.
  intros Hid Hnew. cbn zeta.
  unfold creationEffect. rewrite (truthy_str_Some _ Hid). cbn [negb].
  rewrite bind_get. rewrite bool_decide_eq_false_2 by assumption.
  destruct (onCreated p); cbn; repeat split; reflexivity.
Qed.

Lemma creation_opens_popup_witness :
  trace_of (creationEffect Samples.pay_props (Some "pay_9")
              (OpenReturns (Some {| closed := false |})) initial)
  = [WindowOpen "https://pay.adey.lol" "pay_9"; PopupFocus; OnCreated "pay_9"].
Proof.
  refine (proj1 (creation_opens_popup Samples.pay_props "pay_9" {| closed := false |}
                   initial _ _)).
  - discriminate.
  - vm_compute. discriminate.
Defined.

(** Creation ids and status keys live in one set: once a payment whose
    id is the text ["status-" ++ id] has been created, no message and no
    hook status of payment [id] ever calls a callback. *)
Theorem status_key_collision p a id opened es s :
  id <> "" ->
  Forall (fun d => for_session id d = true) es ->
  let s1 := state_of (creationEffect p (Some (status_key (Some id))) opened s) in
  run p a es s1 = ([], s1).
Proof.
  intros Hid Hes. cbn zeta. apply (run_absorbed p a id); auto.
  apply creation_records. discriminate.
Qed.

Lemma status_key_collision_witness :
  (run Samples.pay_props Samples.pay_origin
     [StatusEffect (Some "abc") (Some "approved")]
     (state_of (creationEffect Samples.pay_props (Some "status-abc")
                  (OpenReturns (Some {| closed := false |})) initial))).1 = [].
Proof.
  refine (f_equal fst (status_key_collision Samples.pay_props Samples.pay_origin "abc"
            (OpenReturns (Some {| closed := false |})) _ initial _ _)).
  - discriminate.
  - repeat constructor.
Defined.

(** A message whose [paymentId] is the empty string passes the subject
    filter of every session: it is accepted under the key ["status-"]
    and [onApproved] is called with the empty id. *)
Theorem empty_id_passes_subject_filter p a c ev s :
  origin_ok a ev = true ->
  type (msg_data ev) = Some protocol_tag ->
  paymentId (msg_data ev) = Some "" ->
  status (msg_data ev) = Some "approved" ->
  status_key (Some "") ∉ handledRef s ->
  onApproved p <> Absent ->
  let r := handleMessage p a c ev s in
  In (OnApproved (Some "")) (trace_of r)
  /\ status_key (Some "") ∈ handledRef (state_of r).
Proof.
  intros Ho Ht Hi Hs Hk Hcb.
  assert (E : handleMessage p a c ev s = on_approved p true "" s).
  { unfold handleMessage. fold (msg_data ev).
    rewrite (origin_ok_passes _ _ Ho), Ht, Hi, Hs.
    rewrite (bool_decide_eq_true_2 (Some protocol_tag = Some protocol_tag)) by reflexivity.
    cbn [negb truthy_str andb subject String.eqb]. rewrite andb_false_r. cbn [andb].
    rewrite bind_get. rewrite bool_decide_eq_false_2 by assumption.
    rewrite (bool_decide_eq_true_2 (Some "approved" = Some "approved")) by reflexivity.
    reflexivity. }
  cbn zeta. rewrite E.
  destruct (on_approved_facts p true "" s) as (_ & _ & Hin & Hh).
  split; [auto|]. rewrite Hh. apply elem_of_union_l, elem_of_singleton. reflexivity.
Qed.

Lemma empty_id_passes_subject_filter_witness :
  In (OnApproved (Some ""))
    (trace_of (handleMessage Samples.pay_props Samples.pay_origin (Some "pay_9")
                 (Samples.popup_message "https://pay.adey.lol" (Some "") "approved")
                 (Samples.created "pay_9"))).
Proof.
  refine (proj1 (empty_id_passes_subject_filter Samples.pay_props Samples.pay_origin
                   (Some "pay_9") _ (Samples.created "pay_9") _ _ _ _ _ _)).
  - reflexivity.
  - reflexivity.
  - reflexivity.
  - reflexivity.
  - vm_compute. discriminate.
  - discriminate.
Defined.

(** The listener never lets an exception of [onApproved] escape: unless
    [onError] itself throws, it completes normally on every message. *)
Theorem listener_completes p a c ev s :
  (forall x, onError p <> Throws x) ->
  completion_of (handleMessage p a c ev s) = Normal tt.
Proof.
  intros He. unfold handleMessage. destruct (onError p) as [| |x] eqn:E;
    [| |exfalso; exact (He x eq_refl)]; run_handler; reflexivity.
Qed.

Lemma listener_completes_witness :
  completion_of
    (handleMessage
       {| amount := VNum (Finite 10); apiKey := VStr "key"; callbackUrl := None;
          note := VUndefined; openPayUrlBase := "https://pay.adey.lol";
          onCreated := Returns; onApproved := Throws (ThrownValue "boom");
          onError := Returns |}
       Samples.pay_origin (Some "pay_9")
       (Samples.popup_message "https://pay.adey.lol" (Some "pay_9") "approved")
       (Samples.created "pay_9"))
  = Normal tt.
Proof.
  refine (listener_completes _ _ _ _ _ _). discriminate.
Defined.

(** When [onApproved] throws: on the message channel the exception is
    logged and the popup is closed all the same; on the hook's channel
    the exception escapes the effect and the popup handle is left as it
    is.  On both the status key is recorded, so the approval is not
    delivered again. *)
Theorem throwing_onApproved p a id x e s :
  id <> "" -> status_key (Some id) ∉ handledRef s ->
  onApproved p = Throws x ->
  reports "approved" id a e = true ->
  let r := step p a e s in
  status_key (Some id) ∈ handledRef (state_of r)
  /\ match e with
     | Message _ _ =>
         trace_of r
         = [OnApproved (Some id); ConsoleError] ++ (if popup_open s then [PopupClose] else [])
         /\ popup_open (state_of r) = false
         /\ completion_of r = Normal tt
     | _ =>
         trace_of r = [OnApproved (Some id)]
         /\ popupRef (state_of r) = popupRef s
         /\ completion_of r = Thrown x
     end.
Proof.
  intros Hid Hk Hcb Hr. cbn zeta.
  rewrite (step_reports p a _ id e s Hid Hr Hk).
  rewrite (bool_decide_eq_true_2 (Some "approved" = Some "approved")) by reflexivity.
  unfold on_approved. rewrite Hcb.
  destruct e as [c o | c ev | c st | o n]; try discriminate;
    destruct s as [h [[[|]]|] l]; cbn -[status_key];
    (split; [apply elem_of_union_l, elem_of_singleton; reflexivity | repeat split]).
Qed.

Lemma throwing_onApproved_witness :
  completion_of
    (step
       {| amount := VNum (Finite 10); apiKey := VStr "key"; callbackUrl := None;
          note := VUndefined; openPayUrlBase := "https://pay.adey.lol";
          onCreated := Returns; onApproved := Throws (ThrownValue "boom");
          onError := Returns |}
       Samples.pay_origin (StatusEffect (Some "pay_9") (Some "approved"))
       (Samples.created "pay_9"))
  = Thrown (ThrownValue "boom").
Proof.
  refine (proj2 (proj2 (proj2 (throwing_onApproved _ Samples.pay_origin "pay_9"
            (ThrownValue "boom") (StatusEffect (Some "pay_9") (Some "approved"))
            (Samples.created "pay_9") _ _ _ _)))).
  - discriminate.
  - vm_compute. discriminate.
  - reflexivity.
  - reflexivity.
Defined.

(** Closing the popup is idempotent: after one close the handle counts
    as closed and a second close does nothing. *)
Theorem close_popup_idempotent s :
  let s1 := state_of (close_popup s) in
  popup_open s1 = false
  /\ close_popup s1 = ([], s1, Normal tt)
  /\ trace_of (close_popup s) = (if popup_open s then [PopupClose] else [])
  /\ handledRef s1 = handledRef s.
Proof.
  destruct s as [h [[[|]]|] l]; cbn; repeat split; reflexivity.
Qed.

(** A click never touches the registry or the popup and never calls
    [onCreated] or [onApproved]; it calls [startPayment] at most once;
    and unless [onError] throws it completes normally, whatever
    [startPayment] does. *)
Theorem pay_click_is_contained p o net s :
  let r := handleClick p o net s in
  handledRef (state_of r) = handledRef s
  /\ popupRef (state_of r) = popupRef s
  /\ (forall i, ~ In (OnCreated i) (trace_of r))
  /\ (forall i, ~ In (OnApproved i) (trace_of r))
  /\ count is_network (trace_of r) <= 1
  /\ ((forall x, onError p <> Throws x) -> completion_of r = Normal tt).
Proof.
  unfold handleClick. destruct (onError p) as [| |x] eqn:E; run_handler.
  all: repeat split; try reflexivity; try lia; intros;
    try (exfalso; match goal with H : forall x, Throws _ <> Throws x |- _ =>
                    exact (H _ eq_refl) end);
    try (intros HIn; cbn in HIn; intuition discriminate).
Qed.

Lemma pay_click_is_contained_witness :
  completion_of (handleClick Samples.pay_props "https://shop.example"
                   (Rejects (ThrownValue "offline")) initial)
  = Normal tt.
Proof.
  refine (proj2 (proj2 (proj2 (proj2 (proj2
            (pay_click_is_contained Samples.pay_props "https://shop.example"
               (Rejects (ThrownValue "offline")) initial))))) _).
  discriminate.
Defined.

(** A click with a valid amount and an API key calls [startPayment]
    once, with the amount, the key and the note of the props and with
    [window.location.origin] as callback URL when the prop is missing;
    a rejection is logged and handed to [onError] as an [Error]. *)
Theorem pay_click_request p o net s n :
  loading s = false -> amount p = VNum n -> num_gt n zero = true ->
  truthy (apiKey p) = true ->
  trace_of (handleClick p o net s)
  = [SetLoading true;
     StartPayment {| req_amount := n; req_apiKey := apiKey p;
                     req_callbackUrl := match callbackUrl p with
                                        | Some u => u
                                        | None => o
                                        end;
                     req_note := note p |}]
    ++ match net with
       | Resolves => []
       | Rejects x => ConsoleError :: fire (onError p) (OnError (to_error x))
       end
    ++ [SetLoading false].
Proof.
  intros Hl Ha Hn Hk.
  destruct (pay_click_unfold p o net s Hl) as [Ht _]. rewrite Ht.
  unfold first_failure, request_of. rewrite Ha, Hn, Hk. cbn [negb as_number].
  destruct (callbackUrl p); reflexivity.
Qed.

Lemma pay_click_request_witness :
  trace_of (handleClick Samples.pay_props "https://shop.example"
              (Rejects (ThrownValue "offline")) initial)
  = [SetLoading true;
     StartPayment {| req_amount := Finite 10; req_apiKey := VStr "key";
                     req_callbackUrl := "https://shop.example"; req_note := VUndefined |};
     ConsoleError; OnError (Err "offline"); SetLoading false].
Proof.
  refine (pay_click_request Samples.pay_props "https://shop.example"
            (Rejects (ThrownValue "offline")) initial (Finite 10) _ _ _ _); reflexivity.
Defined.
End PayButtonMore.


(** ** More about the withdraw button: payload, create call, exceptions *)
Module WithdrawMore.
Import JS Exec ExecFacts WithdrawButton WithdrawFacts.

(** When [getPayload()] returns a payload, the [amount] and [toEmail]
    props play no role in what a click does. *)
Theorem getter_overrides_props p pl a email now rnd net s :
  getPayload p = GetterReturns (Some pl) ->
  handleClick (with_inputs a email p) now rnd net s = handleClick p now rnd net s.
Proof.
  intros Hg. unfold handleClick, call_getPayload, minAmount.
  cbn [with_inputs getPayload disabled amountProp toEmailProp noteProp onError maxAmount
         minAmountProp].
  rewrite Hg. rewrite !bind_get. cbn [with_inputs disabled].
  destruct (loading s || disabled p); [reflexivity|].
  rewrite !bind_ret. reflexivity.
Qed.

Lemma getter_overrides_props_witness :
  let p := {| amountProp := VUndefined; toEmailProp := VUndefined; noteProp := VUndefined;
              createPayout := true; apiKey := VUndefined;
              onCreated := Returns; onApproved := Returns; onError := Returns;
              getPayload := GetterReturns (Some {| amount := VNum (Finite 10);
                                                   toEmail := VStr "a@b.com";
                                                   note := VUndefined |});
              minAmountProp := None; maxAmount := None; disabled := false |} in
  handleClick (with_inputs (VNum (Finite 1)) (VStr "") p) 0 "0.i" (Resolves None) Samples.idle
  = handleClick p 0 "0.i" (Resolves None) Samples.idle.
Proof.
  cbn zeta. refine (getter_overrides_props _ _ _ _ _ _ _ _ _). reflexivity.
Defined.

(** Without a payload from [getPayload]: with neither an [amount] prop
    nor a usable [toEmail] prop the click reports the missing payload;
    with a [toEmail] prop alone a payload is built and the click reports
    an invalid amount instead. *)
Theorem props_fallback p now rnd net s :
  loading s = false -> disabled p = false ->
  getPayload p = NotAFunction \/ getPayload p = GetterReturns None ->
  amountProp p = VUndefined ->
  handleClick p now rnd net s
  = invoke (onError p)
      (OnError (if truthy (toEmailProp p) then invalid_amount else missing_payload)) s.
Proof.
  intros Hl Hd Hg Ha. rewrite (click_unfold_any p now rnd net s Hl Hd).
  unfold first_failure, payload, or_props.
  destruct Hg as [-> | ->]; rewrite Ha; cbn [is_undefined negb orb];
    destruct (truthy (toEmailProp p)); reflexivity.
Qed.

Lemma props_fallback_witness :
  trace_of (handleClick (Samples.withdraw_props VUndefined (VStr "a@b.com")) 0 "0.i"
              (Resolves None) Samples.idle)
  = [OnError invalid_amount].
Proof.
  refine (f_equal trace_of (props_fallback (Samples.withdraw_props VUndefined (VStr "a@b.com"))
            0 "0.i" (Resolves None) Samples.idle _ _ _ _)).
  - reflexivity.
  - reflexivity.
  - left. reflexivity.
  - reflexivity.
Defined.

(** A click makes at most one create call; the call carries the [note]
    and [apiKey] props (a [note] in the payload of [getPayload()] is
    not used) and the idempotency key of this click. *)
Theorem at_most_one_create_call p now rnd net s :
  List.filter is_network (trace_of (handleClick p now rnd net s)) = []
  \/ exists a email,
       List.filter is_network (trace_of (handleClick p now rnd net s))
       = [call p {| req_amount := a; req_toEmail := email; req_note := noteProp p;
                    req_apiKey := apiKey p;
                    req_idempotencyKey := idempotencyKey now rnd |}].
Proof.
  destruct (loading s || disabled p) eqn:Hg.
  { left. unfold handleClick. rewrite bind_get, Hg. reflexivity. }
  apply orb_false_elim in Hg as [Hl Hd].
  destruct (getPayload p) as [|r|x] eqn:Eg.
  3:{ left. rewrite (click_unfold_any p now rnd net s Hl Hd), Eg. reflexivity. }
  all: assert (Hg : forall x, getPayload p <> GetterThrows x)
         by (intros x; rewrite Eg; discriminate).
  all: destruct (first_failure p) as [e|] eqn:Hv;
    [ left; rewrite (click_unfold p now rnd net s Hl Hd Hg), Hv;
      rewrite invoke_trace; apply count_network_fire; reflexivity |].
  all: right; destruct (request_of_valid p now rnd Hv) as [req Hreq];
    exists (req_amount req), (req_toEmail req);
    rewrite <- (request_amount p req now rnd Hreq);
    destruct (valid_click p now rnd net s req Hl Hd Hv Hreq) as [Ht _]; rewrite Ht;
    unfold call;
    (destruct net as [res|y]; [destruct (truthy (identifier res))|]);
    destruct (createPayout p), (onCreated p), (onApproved p), (onError p); reflexivity.
Qed.

(** When the create call rejects, the rejection is handed to [onError]
    as an [Error], neither [onCreated] nor [onApproved] is called, and
    [loading] is released. *)
Theorem rejected_create_call p now rnd x s req :
  loading s = false -> disabled p = false ->
  first_failure p = None -> request_of p now rnd = Some req ->
  let r := handleClick p now rnd (Rejects x) s in
  trace_of r
  = [SetLoading true; call p req] ++ fire (onError p) (OnError (to_error x))
    ++ [SetLoading false]
  /\ loading (state_of r) = false.
Proof.
  intros Hl Hd Hv Hreq.
  destruct (valid_click p now rnd (Rejects x) s req Hl Hd Hv Hreq) as [Ht Hs].
  cbn zeta. rewrite Ht. split; [reflexivity | exact Hs].
Qed.

Lemma rejected_create_call_witness :
  trace_of (handleClick (Samples.withdraw_props (VNum (Finite 10)) (VStr "a@b.com"))
              1700000000000 "0.3lllllllllm" (Rejects (ThrownValue "offline")) Samples.idle)
  = [SetLoading true;
     CreatePayout {| req_amount := Finite 10; req_toEmail := "a@b.com";
                     req_note := VUndefined; req_apiKey := VUndefined;
                     req_idempotencyKey := "ui-1700000000000-3lllll" |};
     OnError (Err "offline"); SetLoading false].
Proof.
  refine (proj1 (rejected_create_call
            (Samples.withdraw_props (VNum (Finite 10)) (VStr "a@b.com"))
            1700000000000 "0.3lllllllllm" (ThrownValue "offline") Samples.idle
            _ _ _ _ _)); reflexivity.
Defined.

(** When [onCreated] throws, the exception is handed to [onError] and
    [onApproved] is never called; [loading] is released all the same. *)
Theorem throwing_onCreated p now rnd res s req x :
  loading s = false -> disabled p = false ->
  first_failure p = None -> request_of p now rnd = Some req ->
  truthy (identifier res) = true -> onCreated p = Throws x ->
  let r := handleClick p now rnd (Resolves res) s in
  trace_of r
  = [SetLoading true; call p req; OnCreated (identifier res) (req_amount req)]
    ++ fire (onError p) (OnError (to_error x)) ++ [SetLoading false]
  /\ (forall i a, ~ In (OnApproved i a) (trace_of r))
  /\ loading (state_of r) = false.
Proof.
  intros Hl Hd Hv Hreq Hid Hc.
  destruct (valid_click p now rnd (Resolves res) s req Hl Hd Hv Hreq) as [Ht Hs].
  cbn zeta. rewrite Ht, Hid, Hc. split; [reflexivity|]. split; [|exact Hs].
  intros i a HIn. unfold call in HIn.
  destruct (createPayout p), (onError p); cbn in HIn; intuition discriminate.
Qed.

Lemma throwing_onCreated_witness :
  trace_of (handleClick
              {| amountProp := VNum (Finite 10); toEmailProp := VStr "a@b.com";
                 noteProp := VUndefined; createPayout := false; apiKey := VUndefined;
                 onCreated := Throws (ThrownValue "boom"); onApproved := Returns;
                 onError := Returns; getPayload := NotAFunction;
                 minAmountProp := None; maxAmount := None; disabled := false |}
              0 "0.i" (Resolves (Some {| payoutId := VStr "p_1"; id := VUndefined |}))
              Samples.idle)
  = [SetLoading true;
     RequestPayoutByEmail {| req_amount := Finite 10; req_toEmail := "a@b.com";
                             req_note := VUndefined; req_apiKey := VUndefined;
                             req_idempotencyKey := "ui-0-i" |};
     OnCreated (VStr "p_1") (Finite 10); OnError (Err "boom"); SetLoading false].
Proof.
  refine (proj1 (throwing_onCreated _ 0 "0.i"
            (Some {| payoutId := VStr "p_1"; id := VUndefined |}) Samples.idle
            _ (ThrownValue "boom") _ _ _ _ _ _)); reflexivity.
Defined.

(** The identifier read from a response: [payoutId] wins when it is
    truthy; otherwise [id] is used; a response without a truthy one of
    the two, or no response object at all, gives the empty string. *)
Theorem identifier_precedence res :
  match res with
  | None => extract_payoutId res = VStr ""
  | Some r =>
      if truthy (payoutId r) then extract_payoutId res = payoutId r
      else if truthy (id r) then extract_payoutId res = id r
      else extract_payoutId res = VStr ""
  end
  /\ truthy (extract_payoutId res) = truthy (identifier res).
Proof.
  destruct res as [[pid i]|]; cbn; [|split; reflexivity].
  unfold or_else. destruct (truthy pid) eqn:Hp; rewrite ?Hp.
  - split; reflexivity.
  - destruct (truthy i) eqn:Hi; rewrite ?Hi; split; reflexivity.
Qed.

(** Two idempotency keys are equal exactly when the two times are equal
    and the kept characters of the two random texts are equal. *)
Theorem idempotencyKey_collides_iff now1 r1 now2 r2 :
  idempotencyKey now1 r1 = idempotencyKey now2 r2
  <-> now1 = now2 /\ slice 2 8 r1 = slice 2 8 r2.
Proof. apply idempotencyKey_eq. Qed.

Lemma length_substring n m s :
  String.length (String.substring n m s) = Nat.min m (String.length s - n).
Proof.
  revert n m. induction s as [|c s IH]; intros [|n] [|m]; simpl; try reflexivity.
  - rewrite IH. rewrite Nat.sub_0_r. reflexivity.
  - apply IH.
  - apply IH.
Qed.

(** The random part of a key has at most six characters, fewer when the
    random text is short: for the text ["0"] of the number 0 it is
    empty. *)
Theorem random_part_bounds r :
  String.length (slice 2 8 r) = Nat.min 6 (String.length r - 2)
  /\ String.length (slice 2 8 r) <= 6
  /\ slice 2 8 "0" = "".
Proof.
  unfold slice. rewrite length_substring. cbn [Nat.sub]. repeat split. lia.
Qed.

Lemma valid_click_calls p now rnd net s :
  loading s = false -> disabled p = false -> first_failure p = None ->
  exists req, request_of p now rnd = Some req
              /\ In (call p req) (trace_of (handleClick p now rnd net s)).
Proof.
  intros Hl Hd Hv. destruct (request_of_valid p now rnd Hv) as [req Hreq].
  exists req. split; [exact Hreq|].
  destruct (valid_click p now rnd net s req Hl Hd Hv Hreq) as [Ht _].
  rewrite Ht. right. left. reflexivity.
Qed.

(** The bounds are inclusive: an amount equal to [minAmount] and to
    [maxAmount] is accepted and the create call is made. *)
Theorem bounds_are_inclusive p pl q email now rnd net s :
  loading s = false -> disabled p = false ->
  payload p = Some pl -> amount pl = VNum (Finite q) -> toEmail pl = VStr email ->
  (0 < q)%Q -> email <> "" ->
  minAmount p = Finite q -> maxAmount p = Some (Finite q) ->
  exists req, request_of p now rnd = Some req
              /\ req_amount req = Finite q
              /\ In (call p req) (trace_of (handleClick p now rnd net s)).
Proof.
  intros Hl Hd Hp Ha He Hq Hne Hmin Hmax.
  assert (Hqq : Qle_bool q q = true) by (apply Qle_bool_iff, Qle_refl).
  assert (Hq0 : Qle_bool q 0 = false).
  { destruct (Qle_bool q 0) eqn:E; [|reflexivity].
    apply Qle_bool_iff in E. exfalso. exact (Qlt_not_le _ _ Hq E). }
  assert (Hv : first_failure p = None).
  { unfold first_failure. rewrite Hp, Ha, He, Hmin, Hmax.
    cbn -[Qle_bool]. unfold num_gt. cbn -[Qle_bool]. rewrite Hq0, Hqq. cbn.
    destruct (String.eqb_spec email ""); [contradiction | reflexivity]. }
  destruct (valid_click_calls p now rnd net s Hl Hd Hv) as (req & Hreq & Hin).
  exists req. repeat split; auto.
  unfold request_of in Hreq. rewrite Hp in Hreq. destruct pl as [a e n].
  cbn in Ha, He. subst a e. injection Hreq as <-. reflexivity.
Qed.

Lemma bounds_are_inclusive_witness :
  exists req,
    request_of (Samples.withdraw_bounded (VNum (Finite 5)) (VStr "a@b.com") None
                  (Some (Finite 5))) 0 "0.i" = Some req
    /\ req_amount req = Finite 5
    /\ In (call (Samples.withdraw_bounded (VNum (Finite 5)) (VStr "a@b.com") None
                   (Some (Finite 5))) req)
         (trace_of (handleClick (Samples.withdraw_bounded (VNum (Finite 5)) (VStr "a@b.com")
                                   None (Some (Finite 5)))
                      0 "0.i" (Resolves None) Samples.idle)).
Proof.
  refine (bounds_are_inclusive
            (Samples.withdraw_bounded (VNum (Finite 5)) (VStr "a@b.com") None
               (Some (Finite 5)))
            {| amount := VNum (Finite 5); toEmail := VStr "a@b.com"; note := VUndefined |}
            5 "a@b.com" 0 "0.i" (Resolves None) Samples.idle
            _ _ _ _ _ _ _ _ _); try reflexivity.
  discriminate.
Defined.

(** A bound that is [NaN] rejects nothing: with [minAmount] and
    [maxAmount] both [NaN], every amount above 0 with a recipient is
    sent to the service. *)
Theorem nan_bounds_reject_nothing p pl n email now rnd net s :
  loading s = false -> disabled p = false ->
  payload p = Some pl -> amount pl = VNum n -> toEmail pl = VStr email ->
  num_gt n zero = true -> email <> "" ->
  minAmountProp p = Some NaN -> maxAmount p = Some NaN ->
  exists req, request_of p now rnd = Some req
              /\ In (call p req) (trace_of (handleClick p now rnd net s)).
Proof.
  intros Hl Hd Hp Ha He Hn Hne Hmin Hmax.
  apply valid_click_calls; auto.
  unfold first_failure, minAmount. rewrite Hp, Ha, He, Hmin, Hmax.
  cbn -[num_gt num_lt]. rewrite Hn. cbn -[num_gt num_lt].
  assert (E1 : num_lt n NaN = false) by (destruct n; reflexivity).
  assert (E2 : num_gt n NaN = false) by (destruct n; reflexivity).
  rewrite E1, E2. destruct (String.eqb_spec email ""); [contradiction | reflexivity].
Qed.

Lemma nan_bounds_reject_nothing_witness :
  exists req,
    request_of (Samples.withdraw_bounded (VNum (Finite 1)) (VStr "a@b.com") (Some NaN)
                  (Some NaN)) 0 "0.i" = Some req
    /\ In (call (Samples.withdraw_bounded (VNum (Finite 1)) (VStr "a@b.com") (Some NaN)
                   (Some NaN)) req)
         (trace_of (handleClick (Samples.withdraw_bounded (VNum (Finite 1)) (VStr "a@b.com")
                                   (Some NaN) (Some NaN))
                      0 "0.i" (Resolves None) Samples.idle)).
Proof.
  refine (nan_bounds_reject_nothing
            (Samples.withdraw_bounded (VNum (Finite 1)) (VStr "a@b.com") (Some NaN)
               (Some NaN))
            {| amount := VNum (Finite 1); toEmail := VStr "a@b.com"; note := VUndefined |}
            (Finite 1) "a@b.com" 0 "0.i" (Resolves None) Samples.idle
            _ _ _ _ _ _ _ _ _); try reflexivity.
  discriminate.
Defined.

(** An exception leaves the click handler only when [getPayload()]
    throws or [onError] itself throws.  What [getPayload()] throws
    escapes before any check: nothing is reported, nothing is called and
    [loading] stays as it was.  A click while [loading] or [disabled]
    does nothing, and does not call [getPayload()]. *)
Theorem withdraw_click_completes p now rnd net s :
  ((forall x, onError p <> Throws x) -> (forall x, getPayload p <> GetterThrows x) ->
   completion_of (handleClick p now rnd net s) = Normal tt)
  /\ (forall x, loading s = false -> disabled p = false -> getPayload p = GetterThrows x ->
      handleClick p now rnd net s = ([], s, Thrown x))
  /\ (loading s = true \/ disabled p = true ->
      handleClick p now rnd net s = ([], s, Normal tt)).
Proof.
  split; [|split].
  - intros He Hg. destruct (loading s || disabled p) eqn:Hgd.
    { unfold handleClick. rewrite bind_get, Hgd. reflexivity. }
    apply orb_false_elim in Hgd as [Hl Hd].
    rewrite (click_unfold p now rnd net s Hl Hd Hg).
    destruct (first_failure p) as [e|].
    + destruct (onError p) as [| |x] eqn:E; [reflexivity..|exfalso; exact (He x eq_refl)].
    + destruct (request_of p now rnd) as [req|]; [|reflexivity].
      unfold create_and_report.
      destruct (onError p) as [| |x] eqn:E; [| |exfalso; exact (He x eq_refl)];
        destruct net as [res|y]; try destruct (truthy (extract_payoutId res));
        destruct (onCreated p), (onApproved p); reflexivity.
  - intros x Hl Hd Hg. rewrite (click_unfold_any p now rnd net s Hl Hd), Hg. reflexivity.
  - intros Hg. unfold handleClick. rewrite bind_get.
    destruct Hg as [-> | ->]; [reflexivity | rewrite orb_true_r; reflexivity].
Qed.

Lemma withdraw_click_completes_witness :
  completion_of
    (handleClick (Samples.withdraw_props (VNum (Finite 10)) (VStr "a@b.com")) 0 "0.i"
       (Rejects (ThrownValue "offline")) Samples.idle)
  = Normal tt
  /\ handleClick
       (WithdrawButton.with_getter (GetterThrows (ThrownValue "boom"))
          (Samples.withdraw_props (VNum (Finite 10)) (VStr "a@b.com")))
       0 "0.i" (Resolves None) Samples.idle
     = ([], Samples.idle, Thrown (ThrownValue "boom")).
Proof.
  split.
  - refine (proj1 (withdraw_click_completes _ 0 "0.i" (Rejects (ThrownValue "offline"))
                     Samples.idle) _ _); discriminate.
  - refine (proj1 (proj2 (withdraw_click_completes _ 0 "0.i" (Resolves None) Samples.idle))
              (ThrownValue "boom") _ _ _); reflexivity.
Defined.
End WithdrawMore.
